(** * Glauber dynamics for the 2D Ising model: a shallow embedding of
    [packages/glauber.py] and the properties of its sweep and sampling
    schedule.

    The Python class [Glauber] mutates one object in place and draws all its
    randomness from NumPy's process-wide generator.  The embedding threads
    both through a state-and-exception monad: a computation takes the current
    state and either returns a value with the new state or raises a Python
    exception, keeping the mutations done so far. *)

From Stdlib Require Import ZArith QArith Qround String Ascii List Lia Bool.
From Stdlib Require Import DecimalString.
From stdpp Require Import base list strings.

Local Open Scope Z_scope.

(** ** Data model *)

(** The lattice is a two-dimensional NumPy array of integers. *)
Abbreviation lattice := (list (list Z)).

(** The attribute [self.tempurature] holds the scalar given to the
    constructor until [start_sim] replaces it by the array [np.arange]
    returns.  Floating-point values are idealised as exact rationals. *)
Inductive temperature : Type :=
| Scalar (t : Q)
| Schedule (ts : list Q).

(** The Python exceptions the modelled code can raise. *)
Inductive exn : Type :=
| ValueError
| TypeError
| IndexError
| AttributeError
| ZeroDivisionError
| InvalidParameter.

(** The image object [imshow] returns; what it displays is Matplotlib's
    business and reaches this model only through the calls made on it. *)
Inductive AxesImage : Type := axes_image.

(** Everything the simulation hands to the outside: console output, calls
    into the plotting and persistence collaborators, and one record per call
    of the two instrumented methods ([Attempt] for [glauber_procedure],
    [Sampled] for [calculate_averages]).  The trace is write-only: no
    definition below reads it. *)
Inductive event : Type :=
| WarningMessage
| PrintTemperature (temp : Q)
| PrintSweep (i timesteps : Z)
| CellsCreated (cells : lattice)
| Attempt (row col : Z) (accepted : bool)
| Sampled (line : string)
| WriteData (data : list string) (dimensions timesteps : Z) (sim_info : string)
| SuperCreateFigure
| SetTitle (title : string)
| Imshow (cells : lattice)
| Colorbar
| SuperStartSim
| SetArray (cells : lattice)
| CheckSim
| Yield.

(** ** Collaborators kept abstract

    [np.random] and the functions of [tools.utils.sim_utils] whose results
    are floating-point or whose result type the class never inspects.  The
    theorems hold for every implementation of this interface. *)
Class Collaborators : Type := {
  (** state of NumPy's global generator *)
  RandomState : Type;
  (** one draw of [np.random.randint(low, high)], for [low < high] *)
  randint : Z -> Z -> RandomState -> Z * RandomState;
  randint_range : forall low high g,
    low < high -> low <= fst (randint low high g) < high;
  (** [sim_utils.determine_flip_state(energy_change, temp)]: the Glauber
      acceptance test, which draws from the same generator *)
  determine_flip_state : Z -> temperature -> RandomState -> bool * RandomState;
  (** the values [sim_utils.calculate_total_energy] and
      [sim_utils.calculate_total_mag] return, and Python's [str] on them
      and on a temperature *)
  observable : Type;
  calculate_total_energy : lattice -> observable;
  calculate_total_mag : lattice -> observable;
  str_observable : observable -> string;
  str_float : Q -> string
}.

(** ** Pure helpers *)

(** Python's [range(n)]: empty when [n <= 0]. *)
Definition range (n : Z) : list Z := map Z.of_nat (seq 0 (Z.to_nat n)).

(** Python's [str.lower] on ASCII text: [A-Z] go to [a-z], every other
    character stays. *)
Definition lower_ascii (c : ascii) : ascii :=
  let n := N_of_ascii c in
  if ((65 <=? n) && (n <=? 90))%N then ascii_of_N (n + 32) else c.

Fixpoint lower (s : string) : string :=
  match s with
  | EmptyString => EmptyString
  | String c s' => String (lower_ascii c) (lower s')
  end.

(** Python's [str] on an [int]. *)
Definition str_int (z : Z) : string :=
  DecimalString.NilZero.string_of_int (Z.to_int z).

(** ["{},{},{}".format(a, b, c)] *)
Definition format3 (a b c : string) : string :=
  a +:+ "," +:+ b +:+ "," +:+ c.

Module np.

(** [np.arange(start, stop, step)]: [ceil((stop - start) / step)] values
    [start + i * step], here in exact arithmetic. *)
Definition arange (start stop step : Q) : list Q :=
  map (fun i => Qred (start + inject_Z i * step))
      (range (Qceiling ((stop - start) / step))).

End np.

(** Reading [cells[row, col]]; [None] stands for NumPy's [IndexError]. *)
Definition cell_at (cells : lattice) (row col : Z) : option Z :=
  if (row <? 0) || (col <? 0) then None
  else match cells !! Z.to_nat row with
       | Some r => r !! Z.to_nat col
       | None => None
       end.

(** The assignment [cells[row, col] = v] on an index that is in range. *)
Definition cell_update (cells : lattice) (row col : Z) (v : Z) : lattice :=
  match cells !! Z.to_nat row with
  | Some r => <[Z.to_nat row := <[Z.to_nat col := v]> r]> cells
  | None => cells
  end.

Module sim_utils.

(** Modelled from the spec: [sim_utils.determine_energy_change] is not
    among the sources.  Section 4.2: the energy change of flipping spin
    [s] is [2 * J * s * (sum of the neighbour spins)] with [J = 1]. *)
Definition determine_energy_change (member : Z) (nieghbours : list Z) : Z :=
  2 * 1 * member * fold_right Z.add 0 nieghbours.

(** Modelled from the spec: [sim_utils.flip_array_state] is not among the
    sources.  Section 4.4: an accepted update negates the spin. *)
Definition flip_array_state (s : Z) : Z := - s.

End sim_utils.

(** The attributes of a [Glauber] object.  [cells], [avg_qauntities] and
    [im] do not exist until [create_cells], [start_full_sim] and
    [create_figure] assign them; [None] stands for the missing attribute. *)
Record Glauber : Type := {
  dimensions : Z;
  timesteps : Z;
  sim_type : string;
  tempurature : temperature;
  cells : option lattice;
  avg_qauntities : option (list string);
  im : option AxesImage
}.

Definition set_tempurature (t : temperature) (g : Glauber) : Glauber :=
  {| dimensions := dimensions g; timesteps := timesteps g;
     sim_type := sim_type g; tempurature := t;
     cells := cells g; avg_qauntities := avg_qauntities g; im := im g |}.

Definition set_cells (c : lattice) (g : Glauber) : Glauber :=
  {| dimensions := dimensions g; timesteps := timesteps g;
     sim_type := sim_type g; tempurature := tempurature g;
     cells := Some c; avg_qauntities := avg_qauntities g; im := im g |}.

Definition set_avg_qauntities (a : list string) (g : Glauber) : Glauber :=
  {| dimensions := dimensions g; timesteps := timesteps g;
     sim_type := sim_type g; tempurature := tempurature g;
     cells := cells g; avg_qauntities := Some a; im := im g |}.

Definition set_im (i : AxesImage) (g : Glauber) : Glauber :=
  {| dimensions := dimensions g; timesteps := timesteps g;
     sim_type := sim_type g; tempurature := tempurature g;
     cells := cells g; avg_qauntities := avg_qauntities g; im := Some i |}.

(** ** The state-and-exception monad *)

Section Monad.
Context {C : Collaborators}.

(** The object, NumPy's global generator and the output so far (oldest
    event first). *)
Record State : Type := {
  self : Glauber;
  np_random : RandomState;
  trace : list event
}.

Definition with_self (f : Glauber -> Glauber) (s : State) : State :=
  {| self := f (self s); np_random := np_random s; trace := trace s |}.

Definition with_np_random (g : RandomState) (s : State) : State :=
  {| self := self s; np_random := g; trace := trace s |}.

Definition with_event (e : event) (s : State) : State :=
  {| self := self s; np_random := np_random s; trace := trace s ++ [e] |}.

Inductive result (A : Type) : Type :=
| Ok (a : A) (s : State)
| Raise (e : exn) (s : State).

Definition M (A : Type) : Type := State -> result A.

Definition ret {A} (a : A) : M A := fun s => Ok A a s.

Definition bind {A B} (m : M A) (k : A -> M B) : M B :=
  fun s => match m s with
           | Ok _ a s' => k a s'
           | Raise _ e s' => Raise B e s'
           end.

Definition raise {A} (e : exn) : M A := fun s => Raise A e s.

(** Reading an attribute of [self]. *)
Definition attr {A} (f : Glauber -> A) : M A := fun s => Ok A (f (self s)) s.

(** Reading an attribute that may not exist yet. *)
Definition attr_opt {A} (f : Glauber -> option A) : M A :=
  fun s => match f (self s) with
           | Some a => Ok A a s
           | None => Raise A AttributeError s
           end.

Definition assign (f : Glauber -> Glauber) : M unit :=
  fun s => Ok unit tt (with_self f s).

Definition emit (e : event) : M unit := fun s => Ok unit tt (with_event e s).

(** A Python [for x in xs: body]. *)
Fixpoint for_each {X} (xs : list X) (body : X -> M unit) : M unit :=
  match xs with
  | [] => ret tt
  | x :: xs' => bind (body x) (fun _ => for_each xs' body)
  end.

(** A Python [if c: body] without [else]. *)
Definition when (c : bool) (body : M unit) : M unit :=
  if c then body else ret tt.

(** The state a computation leaves behind, whether it returned or raised. *)
Definition final {A} (r : result A) : State :=
  match r with
  | Ok _ _ s => s
  | Raise _ _ s => s
  end.

Definition returns {A} (r : result A) : bool :=
  match r with
  | Ok _ _ _ => true
  | Raise _ _ _ => false
  end.

End Monad.

Arguments Ok {C A} a s.
Arguments Raise {C A} e s.

Declare Scope glauber_scope.
Delimit Scope glauber_scope with glauber.
Notation "x <- m ;; k" := (bind m (fun x => k))
  (at level 100, m at next level, right associativity) : glauber_scope.
Notation "m ;; k" := (bind m (fun _ => k))
  (at level 100, right associativity) : glauber_scope.
Local Open Scope glauber_scope.

(** ** NumPy's random module *)

Section Random.
Context {C : Collaborators}.

(** [np.random.randint(low, high)]; NumPy raises [ValueError] unless
    [low < high]. *)
Definition np_random_randint (low high : Z) : M Z :=
  fun s =>
    if low <? high then
      let (k, g) := randint low high (np_random s) in
      Ok k (with_np_random g s)
    else Raise ValueError s.

(** [n] independent picks out of the array [a]: one index draw each. *)
Fixpoint choice_row (a : list Z) (n : nat) (g : RandomState)
  : list Z * RandomState :=
  match n with
  | O => ([], g)
  | S n' =>
      let (k, g1) := randint 0 (Z.of_nat (length a)) g in
      let (r, g2) := choice_row a n' g1 in
      (nth (Z.to_nat k) a 0 :: r, g2)
  end.

Fixpoint choice_rows (a : list Z) (rows cols : nat) (g : RandomState)
  : lattice * RandomState :=
  match rows with
  | O => ([], g)
  | S rows' =>
      let (r, g1) := choice_row a cols g in
      let (rs, g2) := choice_rows a rows' cols g1 in
      (r :: rs, g2)
  end.

(** [np.random.choice(a, size=(rows, cols))], filled in row-major order;
    NumPy raises [ValueError] on an empty [a] and on a negative size. *)
Definition np_random_choice (a : list Z) (rows cols : Z) : M lattice :=
  fun s =>
    if (rows <? 0) || (cols <? 0) || (Nat.eqb (length a) 0)
    then Raise ValueError s
    else
      let (c, g) :=
        choice_rows a (Z.to_nat rows) (Z.to_nat cols) (np_random s) in
      Ok c (with_np_random g s).

End Random.

(** ** The base class [SimulationPlane] *)

Module SimulationPlane.
Section SimulationPlane.
Context {C : Collaborators}.

(** Modelled from the spec: [SimulationPlane.__init__] is in
    [packages/controller.py], which is not among the sources.  Section 7:
    non-positive dimensions or timesteps fail fast at construction with an
    InvalidParameter error; otherwise the two attributes are stored. *)
Definition init (dimensions timesteps : Z) : exn + (Z * Z) :=
  if (dimensions <=? 0) || (timesteps <=? 0)
  then inl InvalidParameter
  else inr (dimensions, timesteps).

(** Modelled from the spec: [SimulationPlane.check_nieghbours] is not
    among the sources.  Section 4.1: the spin at the site and its four
    nearest neighbours, with indices wrapped modulo [N] in both axes. *)
Definition check_nieghbours (coordinate : Z * Z) : M (Z * list Z) :=
  c <- attr_opt cells ;;
  n <- attr dimensions ;;
  let (row, col) := coordinate in
  if n =? 0 then raise ZeroDivisionError
  else
    match cell_at c row col,
          cell_at c ((row - 1) mod n) col, cell_at c ((row + 1) mod n) col,
          cell_at c row ((col - 1) mod n), cell_at c row ((col + 1) mod n)
    with
    | Some member, Some n_up, Some n_down, Some n_left, Some n_right =>
        ret (member, [n_up; n_down; n_left; n_right])
    | _, _, _, _, _ => raise IndexError
    end.

(** Modelled from the spec: the remaining inherited methods are not among
    the sources.  Sections 1 and 6: rendering and console logging are
    external collaborators, specified only at their boundary; each call
    appears as one event.  The figure and the axes that [create_figure]
    of the base class provides belong to that collaborator. *)
Definition warning_message : M unit := emit WarningMessage.
Definition create_figure : M unit := emit SuperCreateFigure.
Definition start_sim : M unit := emit SuperStartSim.
Definition check_sim : M unit := emit CheckSim.

End SimulationPlane.
End SimulationPlane.

(** ** The class [Glauber] *)

Section Glauber.
Context {C : Collaborators}.

(** [Glauber.__init__]: the base constructor runs first, then the two
    attributes of the subclass are stored. *)
Definition init (dimensions timesteps : Z) (sim_type : string)
    (tempurature : Q) : exn + Glauber :=
  match SimulationPlane.init dimensions timesteps with
  | inl e => inl e
  | inr (d, t) =>
      inr {| dimensions := d; timesteps := t; sim_type := sim_type;
             tempurature := Scalar tempurature;
             cells := None; avg_qauntities := None; im := None |}
  end.

Definition create_cells : M unit :=
  d <- attr dimensions ;;
  c <- np_random_choice [1; -1] d d ;;
  assign (set_cells c) ;;
  emit (CellsCreated c).

(** [Glauber.create_figure]: the base class builds the figure, then the
    title is set from [self.dimensions], the lattice is shown and the image
    returned by [imshow] is stored in [self.im].  The calls on the axes and
    on the figure appear as events; [self.cells] must exist for [imshow]. *)
Definition create_figure : M unit :=
  SimulationPlane.create_figure ;;
  d <- attr dimensions ;;
  emit (SetTitle ("Glauber Simulation For " +:+ str_int (d ^ 2) +:+ " Cells")) ;;
  c <- attr_opt cells ;;
  emit (Imshow c) ;;
  assign (set_im axes_image) ;;
  emit Colorbar.

Definition check_nieghbours (coordinate : Z * Z) : M Z :=
  r <- SimulationPlane.check_nieghbours coordinate ;;
  let (member, nieghbours) := r : Z * list Z in
  ret (sim_utils.determine_energy_change member nieghbours).

(** The call [sim_utils.determine_flip_state(energy_change, temp)]. *)
Definition flip_state (energy_change : Z) (temp : temperature) : M bool :=
  fun s =>
    let (outcome, g) := determine_flip_state energy_change temp (np_random s) in
    Ok outcome (with_np_random g s).

Definition glauber_procedure (temp : temperature) : M unit :=
  d <- attr dimensions ;;
  random_row <- np_random_randint 0 d ;;
  random_col <- np_random_randint 0 d ;;
  energy_change <- check_nieghbours (random_row, random_col) ;;
  outcome <- flip_state energy_change temp ;;
  emit (Attempt random_row random_col outcome) ;;
  if outcome then
    c <- attr_opt cells ;;
    match cell_at c random_row random_col with
    | Some spin =>
        let newState := sim_utils.flip_array_state spin in
        assign (set_cells (cell_update c random_row random_col newState))
    | None => raise IndexError
    end
  else ret tt.

Definition calculate_averages (tempurature : Q) : M unit :=
  c <- attr_opt cells ;;
  let average_energy := calculate_total_energy c in
  let average_mag := calculate_total_mag c in
  a <- attr_opt avg_qauntities ;;
  let line := format3 (str_float tempurature)
                      (str_observable average_energy)
                      (str_observable average_mag) in
  assign (set_avg_qauntities (a ++ [line])) ;;
  emit (Sampled line).

(** The header [finished_sim] passes to [write_data]. *)
Definition sim_info (d t : Z) : string :=
  "Glauber Simulation of " +:+ str_int (d ^ 2) +:+ " Cells and "
    +:+ str_int t +:+ " TimeSteps"
    +:+ String (ascii_of_N 10) "temp,avgEnergy,avgMag".

Definition finished_sim : M unit :=
  d <- attr dimensions ;;
  t <- attr timesteps ;;
  a <- attr_opt avg_qauntities ;;
  emit (WriteData a d t (sim_info d t)).

(** One Monte Carlo sweep: the inner loop
    [for j in range(self.dimensions ** 2): self.glauber_procedure(temp)]. *)
Definition sweep (temp : temperature) : M unit :=
  d <- attr dimensions ;;
  for_each (range (d ^ 2)) (fun _ => glauber_procedure temp).

(** The body of [for i in range(self.timesteps)]. *)
Definition sweep_iteration (temp : Q) (i : Z) : M unit :=
  t <- attr timesteps ;;
  when (i mod 10 =? 0) (emit (PrintSweep i t)) ;;
  sweep (Scalar temp) ;;
  when ((99 <=? i) && (i mod 10 =? 0)) (calculate_averages temp).

(** The body of [for temp in self.tempurature]. *)
Definition temperature_block (temp : Q) : M unit :=
  create_cells ;;
  emit (PrintTemperature temp) ;;
  t <- attr timesteps ;;
  for_each (range t) (sweep_iteration temp).

Definition start_full_sim : M unit :=
  SimulationPlane.warning_message ;;
  assign (set_avg_qauntities []) ;;
  temps <- attr tempurature ;;
  match temps with
  | Schedule ts => for_each ts temperature_block
  | Scalar _ => raise TypeError
  end ;;
  finished_sim.

Definition start_sim : M unit :=
  st <- attr sim_type ;;
  if String.eqb (lower st) "visual" then
    create_cells ;;
    create_figure ;;
    SimulationPlane.start_sim
  else
    assign (set_tempurature (Schedule (np.arange 1 3 (1 # 10)))) ;;
    start_full_sim.

(** One frame of the animation: the body of the generator [anim_func] up
    to its [yield].  The source reads [self.tempurature] at every attempt;
    no attempt assigns it, so it is read once here.  [self.im] is read for
    the call of [set_array], before its argument [self.cells], and again
    for the [yield]. *)
Definition anim_func (i : Z) : M unit :=
  temp <- attr tempurature ;;
  sweep temp ;;
  image <- attr_opt im ;;
  c <- attr_opt cells ;;
  emit (SetArray c) ;;
  SimulationPlane.check_sim ;;
  yielded <- attr_opt im ;;
  emit Yield.

End Glauber.

(** ** A concrete instance, used to run the model on explicit inputs

    A linear congruential generator, a piecewise-linear stand-in for the
    logistic acceptance probability, and the observables of section 4.7 as
    integers.  None of the general theorems depends on these choices. *)

Module Concrete.

Definition lcg_next (g : Z) : Z := (1103515245 * g + 12345) mod 2147483648.

Definition lcg_randint (low high : Z) (g : Z) : Z * Z :=
  let g' := lcg_next g in
  (low + (g' / 65536) mod (high - low), g').

Lemma lcg_randint_range low high g :
  low < high -> low <= fst (lcg_randint low high g) < high.
Proof.
  intros Hlt. unfold lcg_randint. cbn [fst].
  pose proof (Z.mod_pos_bound (lcg_next g / 65536) (high - low)) as Hb.
  lia.
Qed.

(** Accept when a draw [u / 1000] lies below [1/2 - dE / (4 T)]. *)
Definition linear_flip_state (energy_change : Z) (temp : temperature)
    (g : Z) : bool * Z :=
  let (u, g') := lcg_randint 0 1000 g in
  match temp with
  | Scalar t =>
      let p := ((1 # 2) - inject_Z energy_change / (4 * t))%Q in
      (negb (Qle_bool p (inject_Z u / 1000)), g')
  | Schedule _ => (false, g')
  end.

Definition spin (c : lattice) (row col : Z) : Z :=
  match cell_at c row col with
  | Some s => s
  | None => 0
  end.

Definition sites (c : lattice) : list (Z * Z) :=
  let n := Z.of_nat (length c) in
  flat_map (fun row => map (fun col => (row, col)) (range n)) (range n).

Definition local_field (c : lattice) (site : Z * Z) : Z :=
  let n := Z.of_nat (length c) in
  let (row, col) := site in
  spin c ((row - 1) mod n) col + spin c ((row + 1) mod n) col
  + spin c row ((col - 1) mod n) + spin c row ((col + 1) mod n).

Definition total_energy (c : lattice) : Z :=
  - (fold_right Z.add 0
       (map (fun site => spin c (fst site) (snd site) * local_field c site)
            (sites c)) / 2).

Definition total_mag (c : lattice) : Z :=
  fold_right Z.add 0 (map (fun site => spin c (fst site) (snd site)) (sites c)).

(** One decimal place, as the schedule's values have. *)
Definition str_tenths (q : Q) : string :=
  let z := Qfloor (q * 10) in
  str_int (z / 10) +:+ "." +:+ str_int (z mod 10).

#[export] Instance collaborators : Collaborators := {|
  RandomState := Z;
  randint := lcg_randint;
  randint_range := lcg_randint_range;
  determine_flip_state := linear_flip_state;
  observable := Z;
  calculate_total_energy := total_energy;
  calculate_total_mag := total_mag;
  str_observable := str_int;
  str_float := str_tenths
|}.

(** A freshly constructed object in a process whose generator was seeded. *)
Definition fresh (g : Glauber) (seed : Z) : State :=
  {| self := g; np_random := seed; trace := [] |}.

Definition object (dimensions timesteps : Z) (sim_type : string) : Glauber :=
  {| dimensions := dimensions; timesteps := timesteps; sim_type := sim_type;
     tempurature := Scalar 2; cells := None; avg_qauntities := None;
     im := None |}.

End Concrete.

(** * Reasoning about runs *)

(** ** Lists and arithmetic *)

Lemma range_length n : length (range n) = Z.to_nat n.
Proof. unfold range. by rewrite length_map, length_seq. Qed.

Lemma range_In n i : In i (range n) <-> 0 <= i < n.
Proof.
  unfold range. rewrite in_map_iff. split.
  - intros (k & <- & Hk). apply in_seq in Hk. lia.
  - intros Hi. exists (Z.to_nat i). split; [lia |]. apply in_seq. lia.
Qed.

Lemma range_succ n : 0 <= n -> range (n + 1) = range n ++ [n].
Proof.
  intros Hn. unfold range.
  replace (Z.to_nat (n + 1)) with (Z.to_nat n + 1)%nat by lia.
  rewrite seq_app, map_app. cbn. f_equal. f_equal. lia.
Qed.

(** The spins a lattice may hold. *)
Definition is_spin (x : Z) : Prop := x = 1 \/ x = -1.

Definition spins_ok (c : lattice) : Prop := Forall (Forall is_spin) c.

(** A [d] by [d] array. *)
Definition shape_ok (d : Z) (c : lattice) : Prop :=
  length c = Z.to_nat d /\ Forall (fun r => length r = Z.to_nat d) c.

Lemma cell_at_in_range d c row col :
  shape_ok d c -> 0 <= row < d -> 0 <= col < d ->
  exists x, cell_at c row col = Some x.
Proof.
  intros [Hlen Hrows] Hr Hc. unfold cell_at.
  replace (row <? 0) with false by lia. replace (col <? 0) with false by lia.
  cbn [orb].
  destruct (lookup_lt_is_Some_2 c (Z.to_nat row)) as [r Hrow]; [lia |].
  rewrite Hrow.
  pose proof (Forall_lookup_1 _ _ _ _ Hrows Hrow) as Hlr. cbn in Hlr.
  apply lookup_lt_is_Some_2. lia.
Qed.

Lemma cell_update_shape d c row col v :
  shape_ok d c -> shape_ok d (cell_update c row col v).
Proof.
  intros [Hlen Hrows]. unfold cell_update.
  destruct (c !! Z.to_nat row) as [r |] eqn:Hrow; [| done].
  split.
  - by rewrite length_insert.
  - apply Forall_insert; [done |]. rewrite length_insert.
    apply (Forall_lookup_1 _ _ _ _ Hrows Hrow).
Qed.

Lemma cell_update_spins c row col v :
  spins_ok c -> is_spin v -> spins_ok (cell_update c row col v).
Proof.
  intros Hc Hv. unfold cell_update.
  destruct (c !! Z.to_nat row) as [r |] eqn:Hrow; [| done].
  apply Forall_insert; [done |]. apply Forall_insert; [| done].
  apply (Forall_lookup_1 _ _ _ _ Hc Hrow).
Qed.

Lemma cell_at_spin c row col x :
  spins_ok c -> cell_at c row col = Some x -> is_spin x.
Proof.
  unfold cell_at. intros Hc Hx.
  destruct ((row <? 0) || (col <? 0)); [done |].
  destruct (c !! Z.to_nat row) as [r |] eqn:Hrow; [| done].
  pose proof (Forall_lookup_1 _ _ _ _ Hc Hrow) as Hr. cbn in Hr.
  apply (Forall_lookup_1 _ _ _ _ Hr Hx).
Qed.

Lemma cell_update_same c row col x v :
  cell_at c row col = Some x -> cell_at (cell_update c row col v) row col = Some v.
Proof.
  unfold cell_at, cell_update. intros Hx.
  destruct ((row <? 0) || (col <? 0)); [done |].
  destruct (c !! Z.to_nat row) as [r |] eqn:Hrow; [| done].
  rewrite list_lookup_insert_eq by (by eapply lookup_lt_Some).
  apply list_lookup_insert_eq. by eapply lookup_lt_Some.
Qed.

Lemma cell_update_other c row col v r k :
  0 <= row -> 0 <= col -> (r, k) <> (row, col) ->
  cell_at (cell_update c row col v) r k = cell_at c r k.
Proof.
  intros Hrow0 Hcol0 Hne. unfold cell_at, cell_update.
  destruct ((r <? 0) || (k <? 0)) eqn:Hneg; [done |].
  apply orb_false_elim in Hneg as [Hr Hk].
  destruct (c !! Z.to_nat row) as [line |] eqn:Hline; [| done].
  destruct (decide (Z.to_nat row = Z.to_nat r)) as [Heq | Hneq].
  - rewrite <- Heq, Hline.
    rewrite list_lookup_insert_eq by (by eapply lookup_lt_Some).
    apply list_lookup_insert_ne. intros Hk'.
    apply Hne. f_equal; lia.
  - by rewrite list_lookup_insert_ne.
Qed.

Lemma flip_array_state_spin x : is_spin x -> is_spin (sim_utils.flip_array_state x).
Proof. unfold is_spin, sim_utils.flip_array_state. lia. Qed.

(** ** What a terminating computation leaves behind *)

(** The lines the [Sampled] events of a trace segment carry. *)
Definition sampled_lines (evs : list event) : list string :=
  flat_map (fun e => match e with Sampled line => [line] | _ => [] end) evs.

Lemma sampled_lines_app e1 e2 :
  sampled_lines (e1 ++ e2) = sampled_lines e1 ++ sampled_lines e2.
Proof. apply flat_map_app. Qed.

(** An [Attempt] event at a site of the [d] by [d] grid. *)
Definition attempt_in (d : Z) (e : event) : Prop :=
  exists row col accepted,
    e = Attempt row col accepted /\ 0 <= row < d /\ 0 <= col < d.

Lemma sampled_lines_attempts d evs :
  Forall (attempt_in d) evs -> sampled_lines evs = [].
Proof.
  induction 1 as [| e evs (row & col & a & -> & _) _ IH]; [done |].
  cbn. apply IH.
Qed.

Section Continuation.
Context {C : Collaborators}.

Lemma bind_ok {A B} (m : M A) (k : A -> M B) s a s' :
  m s = Ok a s' -> bind m k s = k a s'.
Proof. unfold bind. by intros ->. Qed.

Lemma bind_raise {A B} (m : M A) (k : A -> M B) s e s' :
  m s = Raise e s' -> bind m k s = Raise e s'.
Proof. unfold bind. by intros ->. Qed.

Lemma for_each_app {X} (xs ys : list X) (body : X -> M unit) s :
  for_each (xs ++ ys) body s
  = bind (for_each xs body) (fun _ => for_each ys body) s.
Proof.
  revert s. induction xs as [| x xs IH]; intros s; [done |].
  cbn [app for_each]. unfold bind.
  destruct (body x s) as [[] s' | e s']; [| done].
  by rewrite IH.
Qed.

(** [s'] continues [s]: the parameters of the object are the same, the
    trace grew by [evs], and the accumulator, if it exists, grew by the
    lines sampled in [evs]. *)
Record extends (s s' : State) (evs : list event) : Prop := {
  ext_trace : trace s' = trace s ++ evs;
  ext_dimensions : dimensions (self s') = dimensions (self s);
  ext_timesteps : timesteps (self s') = timesteps (self s);
  ext_sim_type : sim_type (self s') = sim_type (self s);
  ext_tempurature : tempurature (self s') = tempurature (self s);
  ext_avg :
    avg_qauntities (self s')
    = (fun a => a ++ sampled_lines evs) <$> avg_qauntities (self s)
}.

Lemma extends_refl s : extends s s [].
Proof.
  split; try done.
  - by rewrite app_nil_r.
  - destruct (avg_qauntities (self s)); cbn; [| done]. by rewrite app_nil_r.
Qed.

Lemma extends_trans s s' s'' e1 e2 :
  extends s s' e1 -> extends s' s'' e2 -> extends s s'' (e1 ++ e2).
Proof.
  intros [Ht Hd Hn Hm Hp Ha] [Ht' Hd' Hn' Hm' Hp' Ha'].
  split; try congruence.
  - rewrite app_assoc. congruence.
  - rewrite Ha', Ha, sampled_lines_app.
    destruct (avg_qauntities (self s)); cbn; [| done].
    by rewrite app_assoc.
Qed.

(** The lattice exists and has the shape the object's dimension says. *)
Definition grid_ok (s : State) : Prop :=
  0 <= dimensions (self s) /\
  exists c, cells (self s) = Some c /\ shape_ok (dimensions (self s)) c.

(** A loop whose body always returns and keeps an invariant returns; its
    trace is the concatenation of what the iterations emitted. *)
Lemma for_each_extends {X} (I : State -> Prop) (E : X -> list event -> Prop)
    (xs : list X) (body : X -> M unit) :
  (forall x s, In x xs -> I s ->
     exists s' evs, body x s = Ok tt s' /\ extends s s' evs /\ I s' /\ E x evs) ->
  forall s, I s ->
    exists s' blocks,
      for_each xs body s = Ok tt s' /\ extends s s' (concat blocks) /\ I s'
      /\ Forall2 E xs blocks.
Proof.
  induction xs as [| x xs IH]; intros Hbody s Hs.
  - exists s, []. split_and!; [done | apply extends_refl | done | constructor].
  - destruct (Hbody x s) as (s1 & evs & Hrun & Hext & Hs1 & He);
      [by left | done |].
    destruct (IH (fun y t Hy => Hbody y t (or_intror Hy)) s1 Hs1)
      as (s2 & blocks & Hrun2 & Hext2 & Hs2 & Hall).
    exists s2, (evs :: blocks). cbn [for_each concat].
    rewrite (bind_ok _ _ _ _ _ Hrun).
    split_and!; [done | by eapply extends_trans | done | by constructor].
Qed.

End Continuation.

Section Methods.
Context {C : Collaborators}.

(** *** Stepping through the primitive actions *)

Lemma bind_attr {A B} (f : Glauber -> A) (k : A -> M B) s :
  bind (attr f) k s = k (f (self s)) s.
Proof. done. Qed.

Lemma bind_attr_opt {A B} (f : Glauber -> option A) (k : A -> M B) s a :
  f (self s) = Some a -> bind (attr_opt f) k s = k a s.
Proof. unfold bind, attr_opt. by intros ->. Qed.

Lemma bind_emit {B} e (k : unit -> M B) s :
  bind (emit e) k s = k tt (with_event e s).
Proof. done. Qed.

Lemma bind_assign {B} f (k : unit -> M B) s :
  bind (assign f) k s = k tt (with_self f s).
Proof. done. Qed.

Lemma bind_randint {B} low high (k : Z -> M B) s :
  low < high ->
  bind (np_random_randint low high) k s
  = k (fst (randint low high (np_random s)))
      (with_np_random (snd (randint low high (np_random s))) s).
Proof.
  intros Hlt. unfold bind, np_random_randint.
  replace (low <? high) with true by lia.
  by destruct (randint low high (np_random s)).
Qed.

Lemma bind_flip_state {B} energy temp (k : bool -> M B) s :
  bind (flip_state energy temp) k s
  = k (fst (determine_flip_state energy temp (np_random s)))
      (with_np_random (snd (determine_flip_state energy temp (np_random s))) s).
Proof.
  unfold bind, flip_state.
  by destruct (determine_flip_state energy temp (np_random s)).
Qed.

(** *** The single-site update *)

Lemma check_nieghbours_returns row col s c :
  cells (self s) = Some c ->
  shape_ok (dimensions (self s)) c ->
  0 <= row < dimensions (self s) ->
  0 <= col < dimensions (self s) ->
  exists energy spin,
    check_nieghbours (row, col) s = Ok energy s
    /\ cell_at c row col = Some spin.
Proof.
  intros Hc Hshape Hrow Hcol.
  set (d := dimensions (self s)) in *.
  assert (Hmod : forall x, 0 <= x mod d < d) by (intros; apply Z.mod_pos_bound; lia).
  destruct (cell_at_in_range d c row col) as [member Hm]; [done .. |].
  destruct (cell_at_in_range d c ((row - 1) mod d) col) as [n1 H1]; [done .. |].
  destruct (cell_at_in_range d c ((row + 1) mod d) col) as [n2 H2]; [done .. |].
  destruct (cell_at_in_range d c row ((col - 1) mod d)) as [n3 H3]; [done .. |].
  destruct (cell_at_in_range d c row ((col + 1) mod d)) as [n4 H4]; [done .. |].
  exists (sim_utils.determine_energy_change member [n1; n2; n3; n4]), member.
  split; [| done].
  assert (SimulationPlane.check_nieghbours (row, col) s
          = Ok (member, [n1; n2; n3; n4]) s) as Hbase.
  { unfold SimulationPlane.check_nieghbours.
    rewrite (bind_attr_opt _ _ _ c Hc), bind_attr. fold d.
    replace (d =? 0) with false by lia.
    by rewrite Hm, H1, H2, H3, H4. }
  unfold check_nieghbours. by rewrite (bind_ok _ _ _ _ _ Hbase).
Qed.

(** In a well-shaped lattice of positive dimension an update attempt
    returns; it draws the row, then the column, then lets the acceptance
    test draw, records the attempt, and negates the chosen spin when the
    flip was accepted. *)
Lemma glauber_procedure_returns temp s c :
  0 < dimensions (self s) ->
  cells (self s) = Some c ->
  shape_ok (dimensions (self s)) c ->
  exists (row col : Z) (accepted : bool) (spin : Z) (g : RandomState),
    0 <= row < dimensions (self s) /\ 0 <= col < dimensions (self s)
    /\ cell_at c row col = Some spin
    /\ row = fst (randint 0 (dimensions (self s)) (np_random s))
    /\ col = fst (randint 0 (dimensions (self s))
                    (snd (randint 0 (dimensions (self s)) (np_random s))))
    /\ glauber_procedure temp s
       = Ok tt {| self := if accepted
                          then set_cells (cell_update c row col (- spin)) (self s)
                          else self s;
                  np_random := g;
                  trace := trace s ++ [Attempt row col accepted] |}.
Proof.
  intros Hd Hc Hshape.
  set (d := dimensions (self s)) in *.
  pose proof (randint_range 0 d (np_random s) Hd) as Hrow.
  set (row := fst (randint 0 d (np_random s))) in *.
  set (g1 := snd (randint 0 d (np_random s))).
  pose proof (randint_range 0 d g1 Hd) as Hcol.
  set (col := fst (randint 0 d g1)) in *.
  set (g2 := snd (randint 0 d g1)).
  destruct (check_nieghbours_returns row col (with_np_random g2 (with_np_random g1 s)) c)
    as (energy & spin & Hen & Hspin); [done .. |].
  set (accepted := fst (determine_flip_state energy temp g2)).
  set (g3 := snd (determine_flip_state energy temp g2)).
  exists row, col, accepted, spin, g3.
  split_and!; try lia; try done.
  unfold glauber_procedure.
  rewrite bind_attr. fold d.
  rewrite bind_randint by done. fold row g1.
  rewrite bind_randint by done. cbn [np_random with_np_random]. fold col g2.
  rewrite (bind_ok _ _ _ _ _ Hen).
  rewrite bind_flip_state. cbn [np_random with_np_random]. fold accepted g3.
  rewrite bind_emit.
  destruct accepted.
  - rewrite (bind_attr_opt _ _ _ c) by done.
    by rewrite Hspin.
  - done.
Qed.

Lemma glauber_procedure_extends temp s :
  grid_ok s -> 0 < dimensions (self s) ->
  exists s' e,
    glauber_procedure temp s = Ok tt s' /\ extends s s' [e] /\ grid_ok s'
    /\ attempt_in (dimensions (self s)) e.
Proof.
  intros [Hd0 (c & Hc & Hshape)] Hd.
  destruct (glauber_procedure_returns temp s c Hd Hc Hshape)
    as (row & col & accepted & spin & g & Hrow & Hcol & Hspin & _ & _ & Hrun).
  eexists _, (Attempt row col accepted). split; [exact Hrun |].
  split_and!.
  - split; cbn; try done; destruct accepted; cbn;
      by destruct (avg_qauntities (self s)); cbn; rewrite ?app_nil_r.
  - destruct accepted; cbn; [| by split; eauto].
    split; [done |]. eexists. split; [done |].
    by apply cell_update_shape.
  - by exists row, col, accepted.
Qed.

(** *** Creating the lattice *)

Lemma choice_row_spins n g :
  length (fst (choice_row [1; -1] n g)) = n
  /\ Forall is_spin (fst (choice_row [1; -1] n g)).
Proof.
  revert g. induction n as [| n IH]; intros g; cbn [choice_row].
  - by split.
  - pose proof (randint_range 0 (Z.of_nat (length [1; -1])) g) as Hk.
    destruct (randint 0 (Z.of_nat (length [1; -1])) g) as [k g1].
    specialize (IH g1). destruct (choice_row [1; -1] n g1) as [r g2].
    cbn [fst length] in *. destruct IH as [Hlen Hall].
    split; [by rewrite Hlen |]. constructor; [| done].
    assert (k = 0 \/ k = 1) as [-> | ->] by lia; [by left | by right].
Qed.

Lemma choice_rows_lattice rows cols g :
  length (fst (choice_rows [1; -1] rows cols g)) = rows
  /\ Forall (fun r => length r = cols) (fst (choice_rows [1; -1] rows cols g))
  /\ spins_ok (fst (choice_rows [1; -1] rows cols g)).
Proof.
  revert g. induction rows as [| rows IH]; intros g; cbn [choice_rows].
  - by split_and!; constructor.
  - pose proof (choice_row_spins cols g) as [Hlen Hspins].
    destruct (choice_row [1; -1] cols g) as [r g1].
    specialize (IH g1). destruct (choice_rows [1; -1] rows cols g1) as [rs g2].
    cbn [fst length] in *. destruct IH as (Hrows & Hcols & Hall).
    split_and!; [by rewrite Hrows | by constructor | by constructor].
Qed.

(** With a non-negative dimension [create_cells] returns, and the lattice
    it leaves is the array drawn from the generator, whatever was there. *)
Lemma create_cells_returns s :
  0 <= dimensions (self s) ->
  let d := dimensions (self s) in
  let drawn := choice_rows [1; -1] (Z.to_nat d) (Z.to_nat d) (np_random s) in
  create_cells s
  = Ok tt {| self := set_cells (fst drawn) (self s);
             np_random := snd drawn;
             trace := trace s ++ [CellsCreated (fst drawn)] |}.
Proof.
  intros Hd d drawn. unfold create_cells.
  rewrite bind_attr. fold d. unfold bind at 1, np_random_choice.
  replace (d <? 0) with false by lia. cbn [orb length Nat.eqb].
  fold drawn. by destruct drawn.
Qed.

Lemma create_cells_extends s :
  0 <= dimensions (self s) ->
  exists s' c,
    create_cells s = Ok tt s' /\ extends s s' [CellsCreated c] /\ grid_ok s'
    /\ cells (self s') = Some c /\ shape_ok (dimensions (self s)) c
    /\ spins_ok c.
Proof.
  intros Hd. rewrite (create_cells_returns s Hd).
  set (d := dimensions (self s)).
  destruct (choice_rows_lattice (Z.to_nat d) (Z.to_nat d) (np_random s))
    as (Hrows & Hcols & Hspins).
  eexists _, _. split; [done |].
  split_and!; try done.
  - split; cbn; try done.
    by destruct (avg_qauntities (self s)); cbn; rewrite ?app_nil_r.
  - split; [done |]. eexists. by split.
Qed.

(** *** Sampling *)

(** The line [calculate_averages] appends for a lattice. *)
Definition observation (temp : Q) (c : lattice) : string :=
  format3 (str_float temp)
          (str_observable (calculate_total_energy c))
          (str_observable (calculate_total_mag c)).

Lemma calculate_averages_returns temp s c a :
  cells (self s) = Some c ->
  avg_qauntities (self s) = Some a ->
  calculate_averages temp s
  = Ok tt (with_event (Sampled (observation temp c))
             (with_self (set_avg_qauntities (a ++ [observation temp c])) s)).
Proof.
  intros Hc Ha. unfold calculate_averages.
  rewrite (bind_attr_opt _ _ _ c Hc).
  by rewrite (bind_attr_opt _ _ _ a Ha).
Qed.

Lemma calculate_averages_extends temp s c :
  cells (self s) = Some c ->
  is_Some (avg_qauntities (self s)) ->
  exists s',
    calculate_averages temp s = Ok tt s'
    /\ extends s s' [Sampled (observation temp c)]
    /\ cells (self s') = Some c.
Proof.
  intros Hc [a Ha]. rewrite (calculate_averages_returns temp s c a Hc Ha).
  eexists. split; [done |]. split; [| done].
  split; cbn; try done. by rewrite Ha.
Qed.

(** *** Sweeps *)

(** What one sweep emits: [d ^ 2] attempts at sites of the grid. *)
Definition sweep_trace (d : Z) (evs : list event) : Prop :=
  length evs = Z.to_nat (d ^ 2) /\ Forall (attempt_in d) evs.

(** What iteration [i] of the sweep loop emits: the progress line every
    tenth sweep, the sweep, and a sample when the source's test
    [i >= 99 and i % 10 == 0] holds. *)
Definition iteration_trace (d t : Z) (i : Z) (evs : list event) : Prop :=
  0 <= i < t /\
  exists attempts line,
    sweep_trace d attempts
    /\ evs = (if i mod 10 =? 0 then [PrintSweep i t] else [])
               ++ attempts
               ++ (if (99 <=? i) && (i mod 10 =? 0) then [Sampled line] else []).

(** What one temperature emits: the new lattice, the temperature line,
    then the iterations of the sweep loop in order. *)
Definition block_trace (d t : Z) (temp : Q) (evs : list event) : Prop :=
  exists c blocks,
    evs = CellsCreated c :: PrintTemperature temp :: concat blocks
    /\ shape_ok d c /\ spins_ok c
    /\ Forall2 (iteration_trace d t) (range t) blocks.

Lemma singletons_concat {X} (P : event -> Prop) (xs : list X) blocks :
  Forall2 (fun _ evs => exists e, evs = [e] /\ P e) xs blocks ->
  length (concat blocks) = length xs /\ Forall P (concat blocks).
Proof.
  induction 1 as [| x evs xs blocks (e & -> & He) _ [IHlen IHall]]; [done |].
  cbn. split; [by rewrite IHlen | by constructor].
Qed.

Lemma extends_event s e :
  sampled_lines [e] = [] -> extends s (with_event e s) [e].
Proof.
  intros He. split; try done. rewrite He. cbn.
  by destruct (avg_qauntities (self s)); cbn; rewrite ?app_nil_r.
Qed.

Lemma sweep_extends temp s :
  grid_ok s ->
  exists s' evs,
    sweep temp s = Ok tt s' /\ extends s s' evs /\ grid_ok s'
    /\ sweep_trace (dimensions (self s)) evs.
Proof.
  intros Hs. unfold sweep. rewrite bind_attr.
  set (d := dimensions (self s)).
  destruct (for_each_extends
              (fun t => grid_ok t /\ dimensions (self t) = d)
              (fun (_ : Z) evs => exists e, evs = [e] /\ attempt_in d e)
              (range (d ^ 2)) (fun _ => glauber_procedure temp))
    with (s := s) as (s' & blocks & Hrun & Hext & [Hs' _] & Hall).
  - intros x t Hx [Ht Hd]. apply range_In in Hx.
    assert (0 < dimensions (self t)) as Hpos.
    { rewrite Hd. destruct Ht as [Hd0 _]. rewrite Hd in Hd0.
      destruct (decide (d = 0)) as [Hz | Hz]; [rewrite Hz in Hx |]; lia. }
    destruct (glauber_procedure_extends temp t Ht Hpos)
      as (t' & e & Hrun & Hext & Ht' & He).
    exists t', [e]. split_and!; try done.
    + rewrite <- Hd. apply Hext.
    + exists e. by rewrite <- Hd.
  - done.
  - apply singletons_concat in Hall as [Hlen Hall].
    exists s', (concat blocks). split_and!; try done.
    split; [by rewrite Hlen, range_length | done].
Qed.

Lemma sweep_iteration_extends temp i s :
  grid_ok s -> is_Some (avg_qauntities (self s)) ->
  exists s' attempts c',
    sweep_iteration temp i s = Ok tt s'
    /\ grid_ok s' /\ cells (self s') = Some c'
    /\ sweep_trace (dimensions (self s)) attempts
    /\ extends s s'
         ((if i mod 10 =? 0 then [PrintSweep i (timesteps (self s))] else [])
            ++ attempts
            ++ (if (99 <=? i) && (i mod 10 =? 0)
                then [Sampled (observation temp c')] else [])).
Proof.
  intros Hs Ha. unfold sweep_iteration. rewrite bind_attr.
  set (t := timesteps (self s)). set (d := dimensions (self s)).
  set (progress := if i mod 10 =? 0 then [PrintSweep i t] else []).
  assert (exists s1, when (i mod 10 =? 0) (emit (PrintSweep i t)) s = Ok tt s1
                     /\ extends s s1 progress /\ grid_ok s1) as (s1 & Hrun1 & Hext1 & Hs1).
  { unfold progress. destruct (i mod 10 =? 0); cbn [when].
    - eexists. split; [done |]. split; [by apply extends_event | done].
    - exists s. split; [done |]. split; [apply extends_refl | done]. }
  rewrite (bind_ok _ _ _ _ _ Hrun1).
  destruct (sweep_extends (Scalar temp) s1 Hs1)
    as (s2 & attempts & Hrun2 & Hext2 & Hs2 & Hsweep).
  rewrite (bind_ok _ _ _ _ _ Hrun2).
  rewrite (ext_dimensions _ _ _ Hext1) in Hsweep. fold d in Hsweep.
  pose proof (extends_trans _ _ _ _ _ Hext1 Hext2) as Hext12.
  destruct Hs2 as [Hd2 (c' & Hc' & Hshape')].
  exists (if (99 <=? i) && (i mod 10 =? 0)
          then with_event (Sampled (observation temp c'))
                 (with_self (set_avg_qauntities
                               (default [] (avg_qauntities (self s2))
                                  ++ [observation temp c'])) s2)
          else s2), attempts, c'.
  destruct ((99 <=? i) && (i mod 10 =? 0)); cbn [when].
  - assert (is_Some (avg_qauntities (self s2))) as [a2 Ha2].
    { rewrite (ext_avg _ _ _ Hext12). by apply fmap_is_Some. }
    rewrite (calculate_averages_returns temp s2 c' a2 Hc' Ha2), Ha2.
    split_and!; try done.
    + split; [done |]. by exists c'.
    + rewrite app_assoc. eapply extends_trans; [exact Hext12 |].
      split; cbn; try done. by rewrite Ha2.
  - split_and!; try done.
    + split; [done |]. by exists c'.
    + by rewrite app_nil_r.
Qed.

(** *** One temperature, and the whole schedule *)

Lemma temperature_block_extends temp s :
  0 <= dimensions (self s) -> is_Some (avg_qauntities (self s)) ->
  exists s' evs,
    temperature_block temp s = Ok tt s' /\ extends s s' evs /\ grid_ok s'
    /\ block_trace (dimensions (self s)) (timesteps (self s)) temp evs.
Proof.
  intros Hd Ha. unfold temperature_block.
  set (d := dimensions (self s)) in *. set (t := timesteps (self s)).
  destruct (create_cells_extends s Hd)
    as (s1 & c & Hrun1 & Hext1 & Hs1 & Hc & Hshape & Hspins).
  rewrite (bind_ok _ _ _ _ _ Hrun1), bind_emit, bind_attr.
  cbn [self with_event]. rewrite (ext_timesteps _ _ _ Hext1). fold t.
  pose proof (extends_trans _ _ _ _ _ Hext1
                (extends_event s1 (PrintTemperature temp) eq_refl)) as Hext2.
  set (s2 := with_event (PrintTemperature temp) s1) in *.
  set (I := fun u : State =>
              grid_ok u /\ is_Some (avg_qauntities (self u))
              /\ dimensions (self u) = d /\ timesteps (self u) = t).
  destruct (for_each_extends I (iteration_trace d t) (range t)
              (sweep_iteration temp)) with (s := s2)
    as (s3 & blocks & Hrun3 & Hext3 & (Hs3 & _) & Hall).
  - intros i u Hi (Hu & Hau & Hdu & Htu). apply range_In in Hi.
    destruct (sweep_iteration_extends temp i u Hu Hau)
      as (u' & attempts & c' & Hrun & Hu' & Hc' & Hsweep & Hext).
    rewrite Hdu in Hsweep. rewrite Htu in Hext.
    eexists u', _. split; [exact Hrun |]. split; [exact Hext |].
    split.
    + split_and!; [done | | |].
      * rewrite (ext_avg _ _ _ Hext). by apply fmap_is_Some.
      * by rewrite (ext_dimensions _ _ _ Hext).
      * by rewrite (ext_timesteps _ _ _ Hext).
    + split; [done |]. by eexists attempts, _.
  - split_and!.
    + done.
    + rewrite (ext_avg _ _ _ Hext2). by apply fmap_is_Some.
    + apply (ext_dimensions _ _ _ Hext2).
    + apply (ext_timesteps _ _ _ Hext2).
  - exists s3, ([CellsCreated c; PrintTemperature temp] ++ concat blocks).
    split_and!; [done | by eapply extends_trans | done |].
    by exists c, blocks.
Qed.

(** Full mode over any schedule returns when the dimension is not
    negative; its output is the warning, one block per temperature in
    order, and the hand-over of the sampled lines to [write_data]. *)
Lemma start_full_sim_returns s ts :
  tempurature (self s) = Schedule ts ->
  0 <= dimensions (self s) ->
  let d := dimensions (self s) in
  let t := timesteps (self s) in
  exists s' blocks,
    start_full_sim s = Ok tt s'
    /\ Forall2 (block_trace d t) ts blocks
    /\ avg_qauntities (self s') = Some (sampled_lines (concat blocks))
    /\ trace s'
       = trace s ++ [WarningMessage] ++ concat blocks
           ++ [WriteData (sampled_lines (concat blocks)) d t (sim_info d t)]
    /\ dimensions (self s') = d /\ timesteps (self s') = t
    /\ tempurature (self s') = Schedule ts.
Proof.
  intros Hts Hd d t. unfold start_full_sim, SimulationPlane.warning_message.
  rewrite bind_emit, bind_assign, bind_attr.
  set (s0 := with_self (set_avg_qauntities []) (with_event WarningMessage s)).
  change (tempurature (self s0)) with (tempurature (self s)). rewrite Hts.
  set (I := fun u : State =>
              0 <= dimensions (self u) /\ is_Some (avg_qauntities (self u))
              /\ dimensions (self u) = d /\ timesteps (self u) = t).
  destruct (for_each_extends I (block_trace d t) ts temperature_block)
    with (s := s0) as (s1 & blocks & Hrun1 & Hext1 & _ & Hall).
  - intros temp u _ (Hdu & Hau & Hdd & Htt).
    destruct (temperature_block_extends temp u Hdu Hau)
      as (u' & evs & Hrun & Hext & Hu' & Hblock).
    rewrite Hdd, Htt in Hblock.
    exists u', evs. split_and!; try done. unfold I.
    rewrite (ext_dimensions _ _ _ Hext), (ext_timesteps _ _ _ Hext),
      (ext_avg _ _ _ Hext).
    split_and!; try done. by apply fmap_is_Some.
  - by split_and!.
  - rewrite (bind_ok _ _ _ _ _ Hrun1). unfold finished_sim.
    rewrite !bind_attr.
    pose proof (ext_avg _ _ _ Hext1) as Havg. cbn in Havg.
    rewrite (bind_attr_opt _ _ _ _ Havg).
    rewrite (ext_dimensions _ _ _ Hext1), (ext_timesteps _ _ _ Hext1).
    eexists _, blocks. split; [done |].
    split_and!; try done.
    + cbn. rewrite (ext_trace _ _ _ Hext1). cbn.
      by rewrite <- !app_assoc.
    + apply (ext_dimensions _ _ _ Hext1).
    + apply (ext_timesteps _ _ _ Hext1).
    + cbn. rewrite (ext_tempurature _ _ _ Hext1). done.
Qed.

(** *** Counting the samples *)

(** The source's sampling test [i >= 99 and i % 10 == 0]. *)
Definition sample_due (i : Z) : bool := (99 <=? i) && (i mod 10 =? 0).

Lemma sample_due_spec i : sample_due i = true <-> 99 <= i /\ i mod 10 = 0.
Proof. unfold sample_due. rewrite andb_true_iff. lia. Qed.

Lemma iteration_samples d t i evs :
  iteration_trace d t i evs ->
  (sample_due i = true -> exists line, sampled_lines evs = [line])
  /\ (sample_due i = false -> sampled_lines evs = []).
Proof.
  intros (_ & attempts & line & [_ Hatt] & ->).
  rewrite !sampled_lines_app, (sampled_lines_attempts d attempts Hatt).
  fold (sample_due i).
  replace (sampled_lines (if i mod 10 =? 0 then [PrintSweep i t] else []))
    with (@nil string) by (by destruct (i mod 10 =? 0)).
  split; intros ->; cbn; eauto.
Qed.

Lemma iterations_samples d t xs blocks :
  Forall2 (iteration_trace d t) xs blocks ->
  length (sampled_lines (concat blocks)) = length (List.filter sample_due xs).
Proof.
  induction 1 as [| i evs xs blocks Hit _ IH]; [done |].
  cbn [concat List.filter]. rewrite sampled_lines_app, length_app, IH.
  destruct (iteration_samples d t i evs Hit) as [Hdue Hnot].
  destruct (sample_due i).
  - destruct Hdue as [line ->]; done.
  - by rewrite Hnot.
Qed.

Lemma block_samples d t temp evs :
  block_trace d t temp evs ->
  length (sampled_lines evs) = length (List.filter sample_due (range t)).
Proof.
  intros (c & blocks & -> & _ & _ & Hall).
  change (sampled_lines (CellsCreated c :: PrintTemperature temp :: concat blocks))
    with (sampled_lines (concat blocks)).
  by eapply iterations_samples.
Qed.

Lemma schedule_samples d t ts blocks :
  Forall2 (block_trace d t) ts blocks ->
  length (sampled_lines (concat blocks))
  = (length ts * length (List.filter sample_due (range t)))%nat.
Proof.
  induction 1 as [| temp evs ts blocks Hb _ IH]; [done |].
  cbn [concat length]. rewrite sampled_lines_app, length_app, IH.
  rewrite (block_samples d t temp evs Hb). lia.
Qed.

Lemma no_sample_before_100 t :
  t <= 100 -> List.filter sample_due (range t) = [].
Proof.
  intros Ht.
  destruct (List.filter sample_due (range t)) as [| i l] eqn:Hf; [done |].
  assert (In i (List.filter sample_due (range t))) as Hi by (rewrite Hf; by left).
  apply filter_In in Hi as [Hi Hdue].
  apply range_In in Hi. apply sample_due_spec in Hdue.
  assert (i = 99) as -> by lia. by destruct Hdue.
Qed.

Lemma iteration_sampled_iff d t i evs :
  iteration_trace d t i evs ->
  (exists line, In (Sampled line) evs) <-> sample_due i = true.
Proof.
  intros (_ & attempts & line & [_ Hatt] & ->). fold (sample_due i). split.
  - intros (l & Hin). rewrite !in_app_iff in Hin.
    destruct Hin as [Hin | [Hin | Hin]].
    + destruct (i mod 10 =? 0); [| done]. by destruct Hin.
    + rewrite List.Forall_forall in Hatt.
      by destruct (Hatt _ Hin) as (row & col & a & Heq & _).
    + by destruct (sample_due i).
  - intros ->. exists line. rewrite !in_app_iff. right. right. by left.
Qed.

Definition progress_line (i t : Z) : list event :=
  if i mod 10 =? 0 then [PrintSweep i t] else [].

(** The events of the sweep of index [i]: the progress line if there is
    one, the [d ^ 2] attempts of the sweep, and directly after them a
    sample exactly when [i] is listed in [due]. *)
Definition sampled_iteration (d t : Z) (due : list Z) (i : Z)
    (it : list event) : Prop :=
  exists attempts,
    sweep_trace d attempts
    /\ (In i due
        /\ (exists line, it = progress_line i t ++ attempts ++ [Sampled line])
        \/ ~ In i due /\ it = progress_line i t ++ attempts).

(** The events of one temperature: the new lattice, the temperature line,
    and then the sweeps of index 0 to [t - 1] in order, sampled exactly
    after those listed in [due]. *)
Definition samples_at (d t : Z) (due : list Z) (temp : Q) (evs : list event)
  : Prop :=
  exists c iterations,
    evs = CellsCreated c :: PrintTemperature temp :: concat iterations
    /\ Forall2 (sampled_iteration d t due) (range t) iterations.

Lemma block_samples_at d t due temp evs :
  (forall i, 0 <= i < t -> sample_due i = true <-> In i due) ->
  block_trace d t temp evs -> samples_at d t due temp evs.
Proof.
  intros Hdue (c & blocks & -> & _ & _ & Hall).
  exists c, blocks. split; [done |].
  eapply Forall2_impl; [exact Hall |].
  intros i it (Hi & attempts & line & Hsweep & ->).
  exists attempts. split; [exact Hsweep |].
  fold (progress_line i t). fold (sample_due i).
  specialize (Hdue i Hi). destruct (sample_due i).
  - left. split; [by apply Hdue | by exists line].
  - right. split; [| by rewrite app_nil_r].
    intros Hin. apply Hdue in Hin. discriminate Hin.
Qed.

Lemma due_of_150 i :
  0 <= i < 150 -> sample_due i = true <-> In i [100; 110; 120; 130; 140].
Proof.
  intros Hi. rewrite sample_due_spec. cbn [In]. split.
  - intros [H99 Hmod]. Z.div_mod_to_equations. lia.
  - intros Hin. split; [lia |].
    destruct Hin as [<- | [<- | [<- | [<- | [<- | []]]]]]; reflexivity.
Qed.

(** C1 (amended).  In Full mode with [timesteps = 150], the events of every
    temperature of the schedule are its 150 sweeps in order, and a sample
    follows the attempts of a sweep exactly when its index is 100, 110,
    120, 130 or 140: five samples per temperature; with [timesteps = 50]
    the run returns with no sample recorded. *)
Theorem samples_of_150_and_50_sweeps (s : State) (ts : list Q) :
  tempurature (self s) = Schedule ts ->
  0 <= dimensions (self s) ->
  (timesteps (self s) = 150 ->
   exists s' blocks lines,
     start_full_sim s = Ok tt s'
     /\ trace s'
        = trace s ++ [WarningMessage] ++ concat blocks
            ++ [WriteData lines (dimensions (self s)) 150
                  (sim_info (dimensions (self s)) 150)]
     /\ Forall2 (samples_at (dimensions (self s)) 150 [100; 110; 120; 130; 140])
                ts blocks
     /\ avg_qauntities (self s') = Some lines
     /\ length lines = (5 * length ts)%nat)
  /\ (timesteps (self s) = 50 ->
      exists s',
        start_full_sim s = Ok tt s' /\ avg_qauntities (self s') = Some []).
Proof.
  intros Hts Hd.
  destruct (start_full_sim_returns s ts Hts Hd)
    as (s' & blocks & Hrun & Hall & Havg & Htrace & _).
  pose proof (schedule_samples _ _ _ _ Hall) as Hcount.
  split; intros Ht; rewrite Ht in *.
  - exists s', blocks, (sampled_lines (concat blocks)).
    split_and!; try done.
    + eapply Forall2_impl; [exact Hall |]. intros temp evs.
      apply block_samples_at. apply due_of_150.
    + rewrite Hcount. change (length (List.filter sample_due (range 150))) with 5%nat.
      lia.
  - exists s'. split; [done |]. rewrite Havg. f_equal.
    apply length_zero_iff_nil. rewrite Hcount.
    rewrite no_sample_before_100 by lia. cbn. lia.
Qed.


(** *** Mode dispatch *)

(** The schedule [start_sim] installs in Full mode. *)
Definition full_schedule : list Q := np.arange 1 3 (1 # 10).

Lemma full_schedule_values :
  Forall2 Qeq full_schedule
    [1; 1.1; 1.2; 1.3; 1.4; 1.5; 1.6; 1.7; 1.8; 1.9;
     2; 2.1; 2.2; 2.3; 2.4; 2.5; 2.6; 2.7; 2.8; 2.9]%Q.
Proof. vm_compute. repeat constructor. Qed.

Definition full_mode (s : State) : State :=
  with_self (set_tempurature (Schedule full_schedule)) s.

Lemma start_sim_full s :
  lower (sim_type (self s)) <> "visual" ->
  start_sim s = start_full_sim (full_mode s).
Proof.
  intros Hmode. unfold start_sim. rewrite bind_attr.
  destruct (String.eqb_spec (lower (sim_type (self s))) "visual"); done.
Qed.

Lemma start_sim_visual s :
  lower (sim_type (self s)) = "visual" ->
  start_sim s = (create_cells ;; create_figure ;; SimulationPlane.start_sim) s.
Proof.
  intros Hmode. unfold start_sim. rewrite bind_attr.
  destruct (String.eqb_spec (lower (sim_type (self s))) "visual"); done.
Qed.

Lemma start_sim_full_returns s :
  lower (sim_type (self s)) <> "visual" ->
  0 <= dimensions (self s) ->
  let d := dimensions (self s) in
  let t := timesteps (self s) in
  exists s' blocks,
    start_sim s = Ok tt s'
    /\ Forall2 (block_trace d t) full_schedule blocks
    /\ avg_qauntities (self s') = Some (sampled_lines (concat blocks))
    /\ trace s'
       = trace s ++ [WarningMessage] ++ concat blocks
           ++ [WriteData (sampled_lines (concat blocks)) d t (sim_info d t)]
    /\ tempurature (self s') = Schedule full_schedule.
Proof.
  intros Hmode Hd d t. rewrite (start_sim_full s Hmode).
  destruct (start_full_sim_returns (full_mode s) full_schedule)
    as (s' & blocks & Hrun & Hall & Havg & Htrace & _ & _ & Htemp);
    [done .. |].
  by exists s', blocks.
Qed.

End Methods.

(** *** Upper and lower case *)

Lemma lower_v c : lower_ascii c = "v"%char <-> c = "v"%char \/ c = "V"%char.
Proof.
  split; [| by intros [-> | ->]].
  destruct c as [[] [] [] [] [] [] [] []]; vm_compute; intros H;
    first [discriminate H | by left | by right].
Qed.

Lemma lower_i c : lower_ascii c = "i"%char <-> c = "i"%char \/ c = "I"%char.
Proof.
  split; [| by intros [-> | ->]].
  destruct c as [[] [] [] [] [] [] [] []]; vm_compute; intros H;
    first [discriminate H | by left | by right].
Qed.

Lemma lower_s c : lower_ascii c = "s"%char <-> c = "s"%char \/ c = "S"%char.
Proof.
  split; [| by intros [-> | ->]].
  destruct c as [[] [] [] [] [] [] [] []]; vm_compute; intros H;
    first [discriminate H | by left | by right].
Qed.

Lemma lower_u c : lower_ascii c = "u"%char <-> c = "u"%char \/ c = "U"%char.
Proof.
  split; [| by intros [-> | ->]].
  destruct c as [[] [] [] [] [] [] [] []]; vm_compute; intros H;
    first [discriminate H | by left | by right].
Qed.

Lemma lower_a c : lower_ascii c = "a"%char <-> c = "a"%char \/ c = "A"%char.
Proof.
  split; [| by intros [-> | ->]].
  destruct c as [[] [] [] [] [] [] [] []]; vm_compute; intros H;
    first [discriminate H | by left | by right].
Qed.

Lemma lower_l c : lower_ascii c = "l"%char <-> c = "l"%char \/ c = "L"%char.
Proof.
  split; [| by intros [-> | ->]].
  destruct c as [[] [] [] [] [] [] [] []]; vm_compute; intros H;
    first [discriminate H | by left | by right].
Qed.

(** The mode strings Python lower-cases to ["visual"]: the six letters, each
    in either case. *)
Definition spells_visual (st : string) : Prop :=
  exists c1 c2 c3 c4 c5 c6 : ascii,
    st = String c1 (String c2 (String c3 (String c4 (String c5 (String c6 EmptyString)))))
    /\ (c1 = "v" \/ c1 = "V")%char /\ (c2 = "i" \/ c2 = "I")%char
    /\ (c3 = "s" \/ c3 = "S")%char /\ (c4 = "u" \/ c4 = "U")%char
    /\ (c5 = "a" \/ c5 = "A")%char /\ (c6 = "l" \/ c6 = "L")%char.

Lemma lower_visual st : lower st = "visual" <-> spells_visual st.
Proof.
  split.
  - destruct st as [| c1 [| c2 [| c3 [| c4 [| c5 [| c6 [| c7 st]]]]]]];
      cbn [lower]; intros H; try discriminate H.
    injection H as H1 H2 H3 H4 H5 H6.
    exists c1, c2, c3, c4, c5, c6.
    rewrite <- lower_v, <- lower_i, <- lower_s, <- lower_u, <- lower_a, <- lower_l.
    by split_and!.
  - intros (c1 & c2 & c3 & c4 & c5 & c6 & -> & H1 & H2 & H3 & H4 & H5 & H6).
    apply lower_v in H1. apply lower_i in H2. apply lower_s in H3.
    apply lower_u in H4. apply lower_a in H5. apply lower_l in H6.
    cbn [lower]. by rewrite H1, H2, H3, H4, H5, H6.
Qed.

(** * The sweep driver and the mode dispatch *)

Section Driver.
Context {C : Collaborators}.

(** One update attempt as a step from state to state: the row and then the
    column are drawn from the generator as the state holds it, the energy
    change of that site is looked up, the acceptance test draws next, the
    attempt is recorded, and the spin is negated when the flip was
    accepted.  The generator of the new state is the one the acceptance
    test left, so the next attempt draws anew. *)
Definition attempt_step (temp : temperature) (s s' : State) : Prop :=
  let d := dimensions (self s) in
  let row := fst (randint 0 d (np_random s)) in
  let g1 := snd (randint 0 d (np_random s)) in
  let col := fst (randint 0 d g1) in
  let g2 := snd (randint 0 d g1) in
  exists c spin energy,
    cells (self s) = Some c
    /\ cell_at c row col = Some spin
    /\ check_nieghbours (row, col) (with_np_random g2 s)
       = Ok energy (with_np_random g2 s)
    /\ s' = {| self := if fst (determine_flip_state energy temp g2)
                       then set_cells (cell_update c row col (- spin)) (self s)
                       else self s;
               np_random := snd (determine_flip_state energy temp g2);
               trace := trace s
                          ++ [Attempt row col
                                (fst (determine_flip_state energy temp g2))] |}.

(** [n] steps in a row, each starting where the one before ended. *)
Inductive iterated (R : State -> State -> Prop) : nat -> State -> State -> Prop :=
| iterated_zero s : iterated R 0 s s
| iterated_succ n s s' s'' :
    R s s' -> iterated R n s' s'' -> iterated R (S n) s s''.

Lemma for_each_iterated {X} (I : State -> Prop) (R : State -> State -> Prop)
    (xs : list X) (body : X -> M unit) :
  (forall x s, In x xs -> I s ->
     exists s', body x s = Ok tt s' /\ I s' /\ R s s') ->
  forall s, I s ->
    exists s', for_each xs body s = Ok tt s' /\ I s'
               /\ iterated R (length xs) s s'.
Proof.
  induction xs as [| x xs IH]; intros Hbody s Hs.
  - exists s. split_and!; [done | done | constructor].
  - destruct (Hbody x s) as (s1 & Hrun & Hs1 & Hstep); [by left | done |].
    destruct (IH (fun y t Hy => Hbody y t (or_intror Hy)) s1 Hs1)
      as (s2 & Hrun2 & Hs2 & Hrest).
    exists s2. cbn [for_each length]. rewrite (bind_ok _ _ _ _ _ Hrun).
    split_and!; [done | done | by econstructor].
Qed.

Lemma glauber_procedure_step temp s :
  grid_ok s -> 0 < dimensions (self s) ->
  exists s', glauber_procedure temp s = Ok tt s' /\ attempt_step temp s s'.
Proof.
  intros [_ (c & Hc & Hshape)] Hd. unfold attempt_step.
  set (d := dimensions (self s)) in *.
  pose proof (randint_range 0 d (np_random s) Hd) as Hrow.
  set (row := fst (randint 0 d (np_random s))) in *.
  set (g1 := snd (randint 0 d (np_random s))).
  pose proof (randint_range 0 d g1 Hd) as Hcol.
  set (col := fst (randint 0 d g1)) in *.
  set (g2 := snd (randint 0 d g1)).
  destruct (check_nieghbours_returns row col (with_np_random g2 s) c)
    as (energy & spin & Hen & Hspin); [done .. |].
  eexists. split; [| exists c, spin, energy; split_and!; try done].
  unfold glauber_procedure.
  rewrite bind_attr. fold d.
  rewrite bind_randint by done. fold row g1.
  rewrite bind_randint by done. cbn [np_random with_np_random]. fold col g2.
  change (with_np_random g2 (with_np_random g1 s)) with (with_np_random g2 s).
  rewrite (bind_ok _ _ _ _ _ Hen).
  rewrite bind_flip_state. cbn [np_random with_np_random].
  rewrite bind_emit.
  destruct (fst (determine_flip_state energy temp g2)).
  - rewrite (bind_attr_opt _ _ _ c) by done.
    by rewrite Hspin.
  - done.
Qed.

Lemma attempt_step_im temp s s' :
  attempt_step temp s s' -> im (self s') = im (self s).
Proof.
  intros (c & spin & energy & _ & _ & _ & ->). cbn [self].
  by destruct (fst (determine_flip_state _ _ _)).
Qed.

Lemma iterated_im temp n s s' :
  iterated (attempt_step temp) n s s' -> im (self s') = im (self s).
Proof.
  induction 1 as [| n s s1 s2 Hstep _ IH]; [done |].
  rewrite IH. by eapply attempt_step_im.
Qed.

(** A sweep is [dimensions ^ 2] update attempts in a row. *)
Lemma sweep_steps temp s :
  grid_ok s ->
  exists s' attempts,
    sweep temp s = Ok tt s'
    /\ iterated (attempt_step temp) (Z.to_nat (dimensions (self s) ^ 2)) s s'
    /\ extends s s' attempts
    /\ grid_ok s'
    /\ sweep_trace (dimensions (self s)) attempts.
Proof.
  intros Hs.
  destruct (sweep_extends temp s Hs) as (s' & evs & Hrun & Hext & Hs' & Hsweep).
  exists s', evs. split; [exact Hrun |]. split; [| done].
  revert Hrun. unfold sweep. rewrite bind_attr.
  set (d := dimensions (self s)). intros Hrun.
  destruct (for_each_iterated
              (fun t => grid_ok t /\ dimensions (self t) = d)
              (attempt_step temp)
              (range (d ^ 2)) (fun _ => glauber_procedure temp))
    with (s := s) as (s2 & Hrun2 & _ & Hsteps).
  - intros x t Hx [Ht Hd]. apply range_In in Hx.
    assert (0 < dimensions (self t)) as Hpos.
    { rewrite Hd. destruct Ht as [Hd0 _]. rewrite Hd in Hd0.
      destruct (decide (d = 0)) as [Hz | Hz]; [rewrite Hz in Hx |]; lia. }
    destruct (glauber_procedure_step temp t Ht Hpos) as (t' & Hok & Hstep).
    destruct (glauber_procedure_extends temp t Ht Hpos)
      as (t'' & e & Hok' & Hext' & Ht'' & _).
    rewrite Hok in Hok'. injection Hok' as <-.
    exists t'. split_and!; try done.
    rewrite <- Hd. apply Hext'.
  - done.
  - rewrite Hrun in Hrun2. injection Hrun2 as <-.
    by rewrite range_length in Hsteps.
Qed.

(** The state in which the sweep of iteration [i] starts: the progress line
    has been printed if [i] is a multiple of ten. *)
Definition after_progress (i : Z) (s : State) : State :=
  if i mod 10 =? 0 then with_event (PrintSweep i (timesteps (self s))) s else s.

Lemma sweep_iteration_steps q i s :
  grid_ok s -> is_Some (avg_qauntities (self s)) ->
  exists s2 s' attempts sample,
    sweep (Scalar q) (after_progress i s) = Ok tt s2
    /\ iterated (attempt_step (Scalar q))
         (Z.to_nat (dimensions (self s) ^ 2)) (after_progress i s) s2
    /\ trace s2 = trace s ++ progress_line i (timesteps (self s)) ++ attempts
    /\ sweep_trace (dimensions (self s)) attempts
    /\ sweep_iteration q i s = Ok tt s'
    /\ trace s' = trace s2 ++ sample
    /\ (sample = [] \/ exists line, sample = [Sampled line])
    /\ cells (self s') = cells (self s2)
    /\ np_random s' = np_random s2.
Proof.
  intros Hs Ha.
  assert (grid_ok (after_progress i s)
          /\ dimensions (self (after_progress i s)) = dimensions (self s)
          /\ avg_qauntities (self (after_progress i s)) = avg_qauntities (self s)
          /\ trace (after_progress i s)
             = trace s ++ progress_line i (timesteps (self s))
          /\ when (i mod 10 =? 0) (emit (PrintSweep i (timesteps (self s)))) s
             = Ok tt (after_progress i s))
    as (Hs1 & Hd1 & Ha1 & Ht1 & Hrun1).
  { unfold after_progress, progress_line.
    destruct (i mod 10 =? 0); cbn [when]; split_and!; try done.
    by rewrite app_nil_r. }
  destruct (sweep_steps (Scalar q) _ Hs1)
    as (s2 & attempts & Hrun2 & Hsteps & Hext2 & Hs2 & Hsweep).
  rewrite Hd1 in Hsteps, Hsweep.
  destruct Hs2 as [Hd2 (c' & Hc' & Hshape')].
  assert (is_Some (avg_qauntities (self s2))) as [a2 Ha2].
  { rewrite (ext_avg _ _ _ Hext2). apply fmap_is_Some. by rewrite Ha1. }
  exists s2,
    (if (99 <=? i) && (i mod 10 =? 0)
     then with_event (Sampled (observation q c'))
            (with_self (set_avg_qauntities (a2 ++ [observation q c'])) s2)
     else s2),
    attempts,
    (if (99 <=? i) && (i mod 10 =? 0) then [Sampled (observation q c')] else []).
  split; [exact Hrun2 |]. split; [exact Hsteps |].
  split; [by rewrite (ext_trace _ _ _ Hext2), Ht1, <- app_assoc |].
  split; [exact Hsweep |].
  split.
  { unfold sweep_iteration. rewrite bind_attr, (bind_ok _ _ _ _ _ Hrun1).
    rewrite (bind_ok _ _ _ _ _ Hrun2).
    destruct ((99 <=? i) && (i mod 10 =? 0)); cbn [when]; [| done].
    by rewrite (calculate_averages_returns q s2 c' a2 Hc' Ha2). }
  destruct ((99 <=? i) && (i mod 10 =? 0)); cbn; split_and!; eauto.
  by rewrite app_nil_r.
Qed.

Lemma anim_func_returns i s :
  grid_ok s -> is_Some (im (self s)) ->
  exists s2 s' attempts c',
    sweep (tempurature (self s)) s = Ok tt s2
    /\ iterated (attempt_step (tempurature (self s)))
         (Z.to_nat (dimensions (self s) ^ 2)) s s2
    /\ extends s s2 attempts
    /\ sweep_trace (dimensions (self s)) attempts
    /\ grid_ok s2
    /\ cells (self s2) = Some c'
    /\ anim_func i s = Ok tt s'
    /\ trace s' = trace s2 ++ [SetArray c'; CheckSim; Yield]
    /\ self s' = self s2
    /\ np_random s' = np_random s2.
Proof.
  intros Hs Him. unfold anim_func, SimulationPlane.check_sim. rewrite bind_attr.
  destruct (sweep_steps (tempurature (self s)) s Hs)
    as (s2 & attempts & Hrun & Hsteps & Hext & Hs2 & Hsweep).
  pose proof Hs2 as [_ (c' & Hc' & _)].
  assert (is_Some (im (self s2))) as [image Himage]
    by (by rewrite (iterated_im _ _ _ _ Hsteps)).
  exists s2, (with_event Yield (with_event CheckSim (with_event (SetArray c') s2))),
    attempts, c'.
  split_and!; try done.
  - rewrite (bind_ok _ _ _ _ _ Hrun), (bind_attr_opt _ _ _ image Himage).
    rewrite (bind_attr_opt _ _ _ c' Hc'), !bind_emit.
    by erewrite bind_attr_opt; [| exact Himage].
  - cbn. by rewrite <- !app_assoc.
Qed.

Lemma sweep_trace_count d evs :
  0 <= d -> sweep_trace d evs -> Z.of_nat (length evs) = d ^ 2.
Proof. intros Hd [-> _]. lia. Qed.

(** C5.  Wherever the lattice exists, one sweep returns after exactly
    [dimensions ^ 2] update attempts in a row, each at a site of the grid.
    Each attempt draws its row and then its column from the generator as
    the attempt before left it, and leaves the generator as its own
    acceptance test left it, whatever sites were visited before.  The sweep
    of a Full-mode iteration is such a sweep, and so is the sweep of a
    Visual frame, which returns when the figure exists. *)
Theorem sweep_makes_dimensions_squared_attempts
    (temp : temperature) (s : State) :
  grid_ok s ->
  let d := dimensions (self s) in
  (exists s' attempts,
      sweep temp s = Ok tt s'
      /\ iterated (attempt_step temp) (Z.to_nat (d ^ 2)) s s'
      /\ trace s' = trace s ++ attempts
      /\ Z.of_nat (length attempts) = d ^ 2
      /\ Forall (attempt_in d) attempts)
  /\ (forall (q : Q) (i : Z),
         is_Some (avg_qauntities (self s)) ->
         exists s2 s' attempts sample,
           iterated (attempt_step (Scalar q)) (Z.to_nat (d ^ 2))
             (after_progress i s) s2
           /\ trace s2 = trace s ++ progress_line i (timesteps (self s)) ++ attempts
           /\ Z.of_nat (length attempts) = d ^ 2
           /\ Forall (attempt_in d) attempts
           /\ sweep_iteration q i s = Ok tt s'
           /\ trace s' = trace s2 ++ sample
           /\ (sample = [] \/ exists line, sample = [Sampled line])
           /\ cells (self s') = cells (self s2)
           /\ np_random s' = np_random s2)
  /\ (is_Some (im (self s)) ->
      forall i : Z,
        exists s2 s' attempts c',
          iterated (attempt_step (tempurature (self s))) (Z.to_nat (d ^ 2)) s s2
          /\ trace s2 = trace s ++ attempts
          /\ Z.of_nat (length attempts) = d ^ 2
          /\ Forall (attempt_in d) attempts
          /\ anim_func i s = Ok tt s'
          /\ trace s' = trace s2 ++ [SetArray c'; CheckSim; Yield]
          /\ cells (self s2) = Some c'
          /\ self s' = self s2
          /\ np_random s' = np_random s2)
  /\ (0 < d ->
      exists s', glauber_procedure temp s = Ok tt s' /\ attempt_step temp s s').
Proof.
  intros Hs d. pose proof Hs as [Hd _]. split_and!.
  - destruct (sweep_steps temp s Hs)
      as (s' & evs & Hrun & Hsteps & Hext & _ & Hsweep).
    exists s', evs.
    split_and!; [done | done | apply Hext | by apply sweep_trace_count
                | apply Hsweep].
  - intros q i Ha.
    destruct (sweep_iteration_steps q i s Hs Ha)
      as (s2 & s' & attempts & sample & _ & Hsteps & Htr2 & Hsweep & Hrun
          & Htr & Hsample & Hc & Hg).
    exists s2, s', attempts, sample.
    split_and!; try done; [by apply sweep_trace_count | apply Hsweep].
  - intros Him i.
    destruct (anim_func_returns i s Hs Him)
      as (s2 & s' & attempts & c' & _ & Hsteps & Hext & Hsweep & _ & Hc
          & Hrun & Htr & Hself & Hg).
    exists s2, s', attempts, c'.
    split_and!; try done; [apply Hext | by apply sweep_trace_count | apply Hsweep].
  - intros Hpos. by apply glauber_procedure_step.
Qed.

(** The Visual branch of [start_sim]. *)
Definition start_visual : M unit :=
  create_cells ;; create_figure ;; SimulationPlane.start_sim.

(** C10.  [start_sim] takes the Visual branch exactly for the mode strings
    that spell "visual" in any mix of upper and lower case, and the Full
    branch for every other string. *)
Theorem mode_selection_ignores_case (s : State) :
  (spells_visual (sim_type (self s)) -> start_sim s = start_visual s)
  /\ (~ spells_visual (sim_type (self s)) ->
      start_sim s = start_full_sim (full_mode s)).
Proof.
  rewrite <- lower_visual. split.
  - apply start_sim_visual.
  - apply start_sim_full.
Qed.

(** C8.  A mode string that does not lower-case to "visual" makes
    [start_sim] behave exactly as Full mode, and with a non-negative
    dimension the run returns without raising. *)
Theorem unrecognized_mode_runs_full (s : State) :
  lower (sim_type (self s)) <> "visual" ->
  start_sim s = start_full_sim (full_mode s)
  /\ (0 <= dimensions (self s) ->
      exists s' blocks,
        start_sim s = Ok tt s'
        /\ Forall2 (block_trace (dimensions (self s)) (timesteps (self s)))
                   full_schedule blocks
        /\ trace s'
           = trace s ++ [WarningMessage] ++ concat blocks
               ++ [WriteData (sampled_lines (concat blocks))
                     (dimensions (self s)) (timesteps (self s))
                     (sim_info (dimensions (self s)) (timesteps (self s)))]).
Proof.
  intros Hmode. split; [by apply start_sim_full |]. intros Hd.
  destruct (start_sim_full_returns s Hmode Hd)
    as (s' & blocks & Hrun & Hall & _ & Htrace & _).
  by exists s', blocks.
Qed.

(** The state [create_cells] leaves: the lattice is the array drawn from
    the generator, and nothing of the previous lattice remains. *)
Definition recreated (u : State) : State :=
  let d := Z.to_nat (dimensions (self u)) in
  let drawn := choice_rows [1; -1] d d (np_random u) in
  {| self := set_cells (fst drawn) (self u);
     np_random := snd drawn;
     trace := trace u ++ [CellsCreated (fst drawn)] |}.


End Driver.

(** * The effect of an update attempt on the lattice *)

Section Frame.
Context {C : Collaborators}.

Lemma cell_at_nonneg c row col x :
  cell_at c row col = Some x -> 0 <= row /\ 0 <= col.
Proof.
  unfold cell_at. destruct ((row <? 0) || (col <? 0)) eqn:Hneg; [done |].
  apply orb_false_elim in Hneg. lia.
Qed.

(** [check_nieghbours] only reads: it returns or raises in the state it
    was called in, and it returns only when the site holds a spin. *)
Lemma check_nieghbours_cases row col s :
  (exists e, check_nieghbours (row, col) s = Raise e s)
  \/ (exists energy c spin,
         check_nieghbours (row, col) s = Ok energy s
         /\ cells (self s) = Some c /\ cell_at c row col = Some spin).
Proof.
  unfold check_nieghbours, SimulationPlane.check_nieghbours.
  unfold bind, attr_opt, attr, raise, ret.
  destruct (cells (self s)) as [c |] eqn:Hc; [| by left; eexists].
  destruct (dimensions (self s) =? 0); [by left; eexists |].
  destruct (cell_at c row col) as [member |] eqn:Hm; [| by left; eexists].
  repeat (match goal with
          | |- context [match cell_at ?l ?r ?k with _ => _ end] =>
              destruct (cell_at l r k)
          end; [| by left; eexists]).
  right. by eexists _, c, member.
Qed.

(** Every way an update attempt can end. *)
Lemma glauber_procedure_cases temp s :
  (exists e s', glauber_procedure temp s = Raise e s' /\ self s' = self s)
  \/ (exists (row col : Z) (accepted : bool) (c : lattice) (spin : Z)
             (g : RandomState),
         glauber_procedure temp s
         = Ok tt {| self := if accepted
                            then set_cells (cell_update c row col (- spin)) (self s)
                            else self s;
                    np_random := g;
                    trace := trace s ++ [Attempt row col accepted] |}
         /\ cells (self s) = Some c /\ cell_at c row col = Some spin).
Proof.
  unfold glauber_procedure. rewrite bind_attr.
  set (d := dimensions (self s)).
  destruct (Z.ltb_spec 0 d) as [Hd | Hd].
  2: { left. exists ValueError, s. split; [| done].
       unfold bind, np_random_randint. by replace (0 <? d) with false by lia. }
  rewrite bind_randint by done.
  set (row := fst (randint 0 d (np_random s))).
  set (g1 := snd (randint 0 d (np_random s))).
  rewrite bind_randint by done. cbn [np_random with_np_random].
  set (col := fst (randint 0 d g1)). set (g2 := snd (randint 0 d g1)).
  set (s2 := with_np_random g2 (with_np_random g1 s)).
  destruct (check_nieghbours_cases row col s2)
    as [[e Hraise] | (energy & c & spin & Hrun & Hc & Hspin)].
  { left. exists e, s2. by rewrite (bind_raise _ _ _ _ _ Hraise). }
  rewrite (bind_ok _ _ _ _ _ Hrun), bind_flip_state, bind_emit.
  cbn [np_random with_np_random s2].
  set (accepted := fst (determine_flip_state energy temp g2)).
  set (g3 := snd (determine_flip_state energy temp g2)).
  right. exists row, col, accepted, c, spin, g3. split; [| done].
  destruct accepted; [| done].
  rewrite (bind_attr_opt _ _ _ c) by done. by rewrite Hspin.
Qed.

(** C7.  An update attempt either raises and leaves the lattice as it
    was, or returns having recorded one attempt at a site [(row, col)]:
    every other cell is unchanged; if the flip was accepted the spin at
    [(row, col)] is negated, and if it was rejected the whole lattice is
    unchanged. *)
Theorem update_touches_one_cell (temp : temperature) (s : State) :
  (exists e s',
      glauber_procedure temp s = Raise e s'
      /\ cells (self s') = cells (self s))
  \/ (exists s' row col accepted c c',
         glauber_procedure temp s = Ok tt s'
         /\ trace s' = trace s ++ [Attempt row col accepted]
         /\ cells (self s) = Some c
         /\ cells (self s') = Some c'
         /\ (forall r k, (r, k) <> (row, col) -> cell_at c' r k = cell_at c r k)
         /\ (accepted = true ->
             exists spin,
               cell_at c row col = Some spin
               /\ cell_at c' row col = Some (- spin))
         /\ (accepted = false -> c' = c)).
Proof.
  destruct (glauber_procedure_cases temp s)
    as [(e & s' & Hrun & Hself)
       | (row & col & accepted & c & spin & g & Hrun & Hc & Hspin)].
  - left. exists e, s'. by rewrite Hself.
  - right. destruct (cell_at_nonneg _ _ _ _ Hspin) as [Hrow Hcol].
    eexists _, row, col, accepted, c,
      (if accepted then cell_update c row col (- spin) else c).
    split; [exact Hrun |]. cbn [trace self].
    destruct accepted; cbn [cells set_cells]; split_and!; try done.
    + intros r k Hne. by apply cell_update_other.
    + intros _. exists spin. split; [done |]. by eapply cell_update_same.
Qed.

End Frame.

(** * What the methods can change in the object *)

(** Every spin of the lattice, when there is one, is [+1] or [-1]. *)
Definition spins_of (g : Glauber) : Prop :=
  forall c, cells g = Some c -> spins_ok c.

(** [evolves g g']: [g'] comes from [g] by assignments to [cells],
    [avg_qauntities], [tempurature] and [im] only, and a lattice assigned
    to an object whose spins were in order has its spins in order. *)
Inductive evolves (g : Glauber) : Glauber -> Prop :=
| evolves_same : evolves g g
| evolves_cells g' c :
    evolves g g' -> (spins_of g' -> spins_ok c) -> evolves g (set_cells c g')
| evolves_avg g' a :
    evolves g g' -> evolves g (set_avg_qauntities a g')
| evolves_tempurature g' t :
    evolves g g' -> evolves g (set_tempurature t g')
| evolves_im g' i :
    evolves g g' -> evolves g (set_im i g').

Lemma evolves_trans g1 g2 g3 : evolves g1 g2 -> evolves g2 g3 -> evolves g1 g3.
Proof. induction 2; [done | by constructor ..]. Qed.

Lemma evolves_spins g g' : evolves g g' -> spins_of g -> spins_of g'.
Proof.
  induction 1 as [| g' c _ IH Hc | g' a _ IH | g' t _ IH | g' i _ IH];
    intros Hg; [done | ..].
  - intros c' [= <-]. apply Hc. by apply IH.
  - by apply IH.
  - by apply IH.
  - by apply IH.
Qed.

Lemma evolves_parameters g g' :
  evolves g g' ->
  dimensions g' = dimensions g /\ timesteps g' = timesteps g
  /\ sim_type g' = sim_type g.
Proof. induction 1; by cbn. Qed.

Section Steady.
Context {C : Collaborators}.

(** A computation is steady when the object it leaves, whether it
    returns or raises, evolved from the one it started with. *)
Definition steady {A} (m : M A) : Prop :=
  forall s, evolves (self s) (self (final (m s))).

Lemma steady_bind {A B} (m : M A) (k : A -> M B) :
  steady m -> (forall a, steady (k a)) -> steady (bind m k).
Proof.
  intros Hm Hk s. specialize (Hm s). unfold bind.
  destruct (m s) as [a s' | e s']; cbn [final] in *; [| done].
  eapply evolves_trans; [exact Hm | apply Hk].
Qed.

Lemma steady_for_each {X} (xs : list X) (body : X -> M unit) :
  (forall x, steady (body x)) -> steady (for_each xs body).
Proof.
  intros Hbody. induction xs as [| x xs IH]; cbn [for_each].
  - intros s. constructor.
  - apply steady_bind; [apply Hbody | by intros _].
Qed.

Lemma steady_when c (body : M unit) : steady body -> steady (when c body).
Proof. destruct c; [done |]. intros _ s. constructor. Qed.

Lemma steady_ret {A} (a : A) : steady (ret a).
Proof. intros s. constructor. Qed.

Lemma steady_raise {A} e : steady (@raise C A e).
Proof. intros s. constructor. Qed.

Lemma steady_attr {A} (f : Glauber -> A) : steady (attr f).
Proof. intros s. constructor. Qed.

Lemma steady_attr_opt {A} (f : Glauber -> option A) : steady (attr_opt f).
Proof. intros s. unfold attr_opt. destruct (f (self s)); constructor. Qed.

Lemma steady_emit e : steady (emit e).
Proof. intros s. constructor. Qed.

Lemma steady_assign_avg a : steady (assign (set_avg_qauntities a)).
Proof. intros s. cbn. by repeat constructor. Qed.

Lemma steady_assign_tempurature t : steady (assign (set_tempurature t)).
Proof. intros s. cbn. by repeat constructor. Qed.

Lemma steady_assign_im i : steady (assign (set_im i)).
Proof. intros s. cbn. by repeat constructor. Qed.

Lemma steady_create_cells : steady create_cells.
Proof.
  intros s. unfold create_cells. rewrite bind_attr.
  unfold bind at 1, np_random_choice.
  match goal with
  | |- context [if ?b then _ else _] => destruct b; [constructor |]
  end.
  pose proof (choice_rows_lattice (Z.to_nat (dimensions (self s)))
                (Z.to_nat (dimensions (self s))) (np_random s)) as (_ & _ & Hspins).
  destruct (choice_rows _ _ _ _) as [c g]. cbn in *.
  by repeat constructor.
Qed.

Lemma steady_glauber_procedure temp : steady (glauber_procedure temp).
Proof.
  intros s.
  destruct (glauber_procedure_cases temp s)
    as [(e & s' & -> & Hself)
       | (row & col & accepted & c & spin & g & -> & Hc & Hspin)]; cbn [final].
  - rewrite Hself. constructor.
  - destruct accepted; cbn [self]; [| constructor].
    constructor; [constructor |]. intros Hspins.
    apply cell_update_spins; [by apply Hspins |].
    apply flip_array_state_spin. eapply cell_at_spin; [by apply Hspins | done].
Qed.

Lemma steady_check_nieghbours coordinate : steady (check_nieghbours coordinate).
Proof.
  intros s. destruct coordinate as [row col].
  destruct (check_nieghbours_cases row col s)
    as [[e ->] | (energy & c & spin & -> & _)]; constructor.
Qed.

Lemma steady_sweep temp : steady (sweep temp).
Proof.
  apply steady_bind; [apply steady_attr |]. intros d.
  apply steady_for_each. intros _. apply steady_glauber_procedure.
Qed.

Lemma steady_calculate_averages temp : steady (calculate_averages temp).
Proof.
  apply steady_bind; [apply steady_attr_opt |]. intros c.
  apply steady_bind; [apply steady_attr_opt |]. intros a.
  apply steady_bind; [apply steady_assign_avg |]. intros _.
  apply steady_emit.
Qed.

Lemma steady_sweep_iteration temp i : steady (sweep_iteration temp i).
Proof.
  apply steady_bind; [apply steady_attr |]. intros t.
  apply steady_bind; [apply steady_when, steady_emit |]. intros _.
  apply steady_bind; [apply steady_sweep |]. intros _.
  apply steady_when, steady_calculate_averages.
Qed.

Lemma steady_temperature_block temp : steady (temperature_block temp).
Proof.
  apply steady_bind; [apply steady_create_cells |]. intros _.
  apply steady_bind; [apply steady_emit |]. intros _.
  apply steady_bind; [apply steady_attr |]. intros t.
  apply steady_for_each. intros i. apply steady_sweep_iteration.
Qed.

Lemma steady_finished_sim : steady finished_sim.
Proof.
  apply steady_bind; [apply steady_attr |]. intros d.
  apply steady_bind; [apply steady_attr |]. intros t.
  apply steady_bind; [apply steady_attr_opt |]. intros a.
  apply steady_emit.
Qed.

Lemma steady_start_full_sim : steady start_full_sim.
Proof.
  apply steady_bind; [apply steady_emit |]. intros _.
  apply steady_bind; [apply steady_assign_avg |]. intros _.
  apply steady_bind; [apply steady_attr |]. intros temps.
  apply steady_bind; [| intros _; apply steady_finished_sim].
  destruct temps; [apply steady_raise |].
  apply steady_for_each. intros temp. apply steady_temperature_block.
Qed.

Lemma steady_create_figure : steady create_figure.
Proof.
  apply steady_bind; [apply steady_emit |]. intros _.
  apply steady_bind; [apply steady_attr |]. intros d.
  apply steady_bind; [apply steady_emit |]. intros _.
  apply steady_bind; [apply steady_attr_opt |]. intros c.
  apply steady_bind; [apply steady_emit |]. intros _.
  apply steady_bind; [apply steady_assign_im |]. intros _.
  apply steady_emit.
Qed.

Lemma steady_start_sim : steady start_sim.
Proof.
  apply steady_bind; [apply steady_attr |]. intros st.
  destruct (lower st =? "visual")%string.
  - apply steady_bind; [apply steady_create_cells |]. intros _.
    apply steady_bind; [apply steady_create_figure |]. intros _.
    apply steady_emit.
  - apply steady_bind; [apply steady_assign_tempurature |]. intros _.
    apply steady_start_full_sim.
Qed.

Lemma steady_anim_func i : steady (anim_func i).
Proof.
  apply steady_bind; [apply steady_attr |]. intros temp.
  apply steady_bind; [apply steady_sweep |]. intros _.
  apply steady_bind; [apply steady_attr_opt |]. intros image.
  apply steady_bind; [apply steady_attr_opt |]. intros c.
  apply steady_bind; [apply steady_emit |]. intros _.
  apply steady_bind; [apply steady_emit |]. intros _.
  apply steady_bind; [apply steady_attr_opt |]. intros yielded.
  apply steady_emit.
Qed.

(** ** Reachable states: any sequence of method calls on an object *)

Inductive method : Type :=
| call_create_cells
| call_create_figure
| call_start_sim
| call_start_full_sim
| call_calculate_averages (tempurature : Q)
| call_anim_func (i : Z)
| call_glauber_procedure (temp : temperature)
| call_check_nieghbours (coordinate : Z * Z)
| call_finished_sim.

(** The state after a call, whether it returned or raised. *)
Definition call (m : method) (s : State) : State :=
  match m with
  | call_create_cells => final (create_cells s)
  | call_create_figure => final (create_figure s)
  | call_start_sim => final (start_sim s)
  | call_start_full_sim => final (start_full_sim s)
  | call_calculate_averages t => final (calculate_averages t s)
  | call_anim_func i => final (anim_func i s)
  | call_glauber_procedure temp => final (glauber_procedure temp s)
  | call_check_nieghbours coordinate => final (check_nieghbours coordinate s)
  | call_finished_sim => final (finished_sim s)
  end.

Definition run_calls (ms : list method) (s : State) : State :=
  fold_left (fun s m => call m s) ms s.

Lemma call_evolves m s : evolves (self s) (self (call m s)).
Proof.
  destruct m; cbn [call].
  - apply steady_create_cells.
  - apply steady_create_figure.
  - apply steady_start_sim.
  - apply steady_start_full_sim.
  - apply steady_calculate_averages.
  - apply steady_anim_func.
  - apply steady_glauber_procedure.
  - apply steady_check_nieghbours.
  - apply steady_finished_sim.
Qed.

Lemma run_calls_evolves ms s : evolves (self s) (self (run_calls ms s)).
Proof.
  revert s. induction ms as [| m ms IH]; intros s; cbn [run_calls fold_left].
  - constructor.
  - eapply evolves_trans; [apply call_evolves | apply IH].
Qed.

End Steady.

Section Reachable.
Context {C : Collaborators}.

(** C6.  Start from any state whose lattice, if it has one, holds only
    spins (in particular from a newly constructed object, which has no
    lattice) and call any methods in any order, update attempts included:
    every cell of the lattice is then [+1] or [-1]. *)
Theorem every_cell_is_a_spin (s0 : State) (ms : list method) :
  spins_of (self s0) ->
  forall c row col x,
    cells (self (run_calls ms s0)) = Some c ->
    cell_at c row col = Some x ->
    x = 1 \/ x = -1.
Proof.
  intros H0 c row col x Hc Hx.
  pose proof (evolves_spins _ _ (run_calls_evolves ms s0) H0) as Hspins.
  eapply cell_at_spin; [by apply Hspins | done].
Qed.

(** C3.  The constructor rejects a non-positive dimension or number of
    timesteps with [InvalidParameter]; an object it does return has both
    positive, holds no lattice yet, and keeps both values through every
    sequence of method calls. *)
Theorem nonpositive_sizes_are_rejected
    (dims steps : Z) (mode : string) (temp : Q) :
  (dims <= 0 \/ steps <= 0 -> init dims steps mode temp = inl InvalidParameter)
  /\ (forall g,
         init dims steps mode temp = inr g ->
         0 < dims /\ 0 < steps /\ cells g = None
         /\ forall (rng : RandomState) (ms : list method),
             let s := run_calls ms {| self := g; np_random := rng; trace := [] |} in
             dimensions (self s) = dims /\ timesteps (self s) = steps).
Proof.
  unfold init, SimulationPlane.init. split.
  - intros Hbad. by replace ((dims <=? 0) || (steps <=? 0)) with true by lia.
  - intros g. destruct ((dims <=? 0) || (steps <=? 0)) eqn:Hok; [done |].
    intros [= <-]. apply orb_false_elim in Hok.
    split; [lia |]. split; [lia |]. split; [done |].
    intros rng ms.
    match goal with
    | |- context [run_calls ms ?s0] =>
        destruct (evolves_parameters _ _ (run_calls_evolves ms s0))
          as (Hd & Ht & _)
    end.
    by split.
Qed.

End Reachable.

(** * Two runs side by side *)

Section Determinism.
Context {C : Collaborators}.

(** Two states agree when they have the same dimension, number of
    timesteps, temperature attribute and generator state; on request also
    the same accumulator, and the same lattice.  The mode string and the
    trace are free. *)
Definition agree (on_avg on_cells : bool) (s1 s2 : State) : Prop :=
  dimensions (self s1) = dimensions (self s2)
  /\ timesteps (self s1) = timesteps (self s2)
  /\ tempurature (self s1) = tempurature (self s2)
  /\ np_random s1 = np_random s2
  /\ (on_avg = true -> avg_qauntities (self s1) = avg_qauntities (self s2))
  /\ (on_cells = true -> cells (self s1) = cells (self s2)).

Lemma agree_weaken a c a' c' s1 s2 :
  (a' = true -> a = true) -> (c' = true -> c = true) ->
  agree a c s1 s2 -> agree a' c' s1 s2.
Proof. intros Ha Hc (? & ? & ? & ? & ? & ?). split_and!; auto. Qed.

(** [together pre post m]: started in states related by [pre], the two
    runs of [m] both return, with the same value and in states related by
    [post], or both raise the same exception, in states that agree on
    the accumulator. *)
Definition together {A} (pre post : State -> State -> Prop) (m : M A) : Prop :=
  forall s1 s2, pre s1 s2 ->
    match m s1, m s2 with
    | Ok a1 t1, Ok a2 t2 => a1 = a2 /\ post t1 t2
    | Raise e1 t1, Raise e2 t2 => e1 = e2 /\ agree true false t1 t2
    | _, _ => False
    end.

Lemma together_bind {A B} pre mid post (m : M A) (k : A -> M B) :
  together pre mid m -> (forall a, together mid post (k a)) ->
  together pre post (bind m k).
Proof.
  intros Hm Hk s1 s2 Hpre. specialize (Hm s1 s2 Hpre). unfold bind.
  destruct (m s1) as [a1 t1 | e1 t1], (m s2) as [a2 t2 | e2 t2]; try done.
  destruct Hm as [<- Hmid]. by apply Hk.
Qed.

Lemma together_weaken {A} (pre pre' post post' : State -> State -> Prop)
    (m : M A) :
  (forall s1 s2, pre' s1 s2 -> pre s1 s2) ->
  (forall s1 s2, post s1 s2 -> post' s1 s2) ->
  together pre post m -> together pre' post' m.
Proof.
  intros Hpre Hpost Hm s1 s2 H. specialize (Hm s1 s2 (Hpre _ _ H)).
  destruct (m s1), (m s2); try done. destruct Hm. split; auto.
Qed.

Lemma together_for_each {X} inv (xs : list X) (body : X -> M unit) :
  (forall x, together inv inv (body x)) ->
  together inv inv (for_each xs body).
Proof.
  intros Hbody. induction xs as [| x xs IH]; cbn [for_each].
  - by intros s1 s2 H.
  - eapply together_bind; [apply Hbody | by intros _].
Qed.

Lemma together_when inv c (body : M unit) :
  together inv inv body -> together inv inv (when c body).
Proof. destruct c; [done |]. by intros _ s1 s2 H. Qed.

Lemma together_ret {A} inv (a : A) : together inv inv (ret a).
Proof. by intros s1 s2 H. Qed.

Lemma together_raise {A} c post e : together (agree true c) post (@raise C A e).
Proof. intros s1 s2 H. split; [done |]. by eapply agree_weaken; [| | exact H]. Qed.

Lemma together_emit a c e : together (agree a c) (agree a c) (emit e).
Proof. by intros s1 s2 H. Qed.

Lemma together_dimensions a c : together (agree a c) (agree a c) (attr dimensions).
Proof. intros s1 s2 H. split; [apply H | done]. Qed.

Lemma together_timesteps a c : together (agree a c) (agree a c) (attr timesteps).
Proof. intros s1 s2 H. split; [apply H | done]. Qed.

Lemma together_tempurature a c : together (agree a c) (agree a c) (attr tempurature).
Proof. intros s1 s2 H. split; [apply H | done]. Qed.

Lemma together_avg c :
  together (agree true c) (agree true c) (attr_opt avg_qauntities).
Proof.
  intros s1 s2 H. unfold attr_opt.
  pose proof H as (_ & _ & _ & _ & Ha & _). rewrite (Ha eq_refl).
  destruct (avg_qauntities (self s2)); (split; [done |]); [done |].
  by eapply agree_weaken; [| | exact H].
Qed.

Lemma together_cells :
  together (agree true true) (agree true true) (attr_opt cells).
Proof.
  intros s1 s2 H. unfold attr_opt.
  pose proof H as (_ & _ & _ & _ & _ & Hc). rewrite (Hc eq_refl).
  destruct (cells (self s2)); (split; [done |]); [done |].
  by eapply agree_weaken; [| | exact H].
Qed.

Lemma together_set_avg c lines :
  together (agree false c) (agree true c) (assign (set_avg_qauntities lines)).
Proof. intros s1 s2 (? & ? & ? & ? & ? & ?). split; [done |]. by split_and!. Qed.

Lemma together_set_cells a c :
  together (agree a false) (agree a true) (assign (set_cells c)).
Proof. intros s1 s2 (? & ? & ? & ? & ? & ?). split; [done |]. by split_and!. Qed.

Lemma together_randint c low high :
  together (agree true c) (agree true c) (np_random_randint low high).
Proof.
  intros s1 s2 H. unfold np_random_randint.
  destruct H as (Hd & Ht & Hp & Hg & Ha & Hc). rewrite Hg.
  destruct (low <? high); [| by split; [| split_and!]].
  destruct (randint low high (np_random s2)). by split; [| split_and!].
Qed.

Lemma together_choice c a rows cols :
  together (agree true c) (agree true c) (np_random_choice a rows cols).
Proof.
  intros s1 s2 H. unfold np_random_choice.
  destruct H as (Hd & Ht & Hp & Hg & Ha & Hc). rewrite Hg.
  match goal with
  | |- context [if ?b then _ else _] => destruct b; [by split; [| split_and!] |]
  end.
  destruct (choice_rows _ _ _ _). by split; [| split_and!].
Qed.

Lemma together_flip_state a c energy temp :
  together (agree a c) (agree a c) (flip_state energy temp).
Proof.
  intros s1 s2 H. unfold flip_state.
  destruct H as (Hd & Ht & Hp & Hg & Ha & Hc). rewrite Hg.
  destruct (determine_flip_state _ _ _). by split; [| split_and!].
Qed.

Abbreviation same_run := (agree true true).

Lemma together_check_nieghbours coordinate :
  together same_run same_run (check_nieghbours coordinate).
Proof.
  eapply together_bind; [| intros [member nieghbours]; apply together_ret].
  eapply together_bind; [apply together_cells |]. intros c.
  eapply together_bind; [apply together_dimensions |]. intros n.
  destruct coordinate as [row col].
  destruct (n =? 0); [apply together_raise |].
  repeat match goal with
         | |- context [match cell_at ?l ?r ?k with _ => _ end] =>
             destruct (cell_at l r k)
         end;
    first [apply together_ret | apply together_raise].
Qed.

Lemma together_glauber_procedure temp :
  together same_run same_run (glauber_procedure temp).
Proof.
  eapply together_bind; [apply together_dimensions |]. intros d.
  eapply together_bind; [apply together_randint |]. intros row.
  eapply together_bind; [apply together_randint |]. intros col.
  eapply together_bind; [apply together_check_nieghbours |]. intros energy.
  eapply together_bind; [apply together_flip_state |]. intros outcome.
  eapply together_bind; [apply together_emit |]. intros _.
  destruct outcome; [| apply together_ret].
  eapply together_bind; [apply together_cells |]. intros c.
  destruct (cell_at c row col); [| apply together_raise].
  eapply together_weaken; [| | apply (together_set_cells true)]; [| done].
  intros s1 s2 H. by eapply agree_weaken; [| | exact H].
Qed.

Lemma together_sweep temp : together same_run same_run (sweep temp).
Proof.
  eapply together_bind; [apply together_dimensions |]. intros d.
  apply together_for_each. intros _. apply together_glauber_procedure.
Qed.

Lemma together_calculate_averages temp :
  together same_run same_run (calculate_averages temp).
Proof.
  eapply together_bind; [apply together_cells |]. intros c.
  eapply together_bind; [apply together_avg |]. intros a.
  eapply together_bind; [| intros _; apply together_emit].
  eapply together_weaken; [| | apply (together_set_avg true)]; [| done].
  intros s1 s2 H. by eapply agree_weaken; [| | exact H].
Qed.

Lemma together_sweep_iteration temp i :
  together same_run same_run (sweep_iteration temp i).
Proof.
  eapply together_bind; [apply together_timesteps |]. intros t.
  eapply together_bind; [apply together_when, together_emit |]. intros _.
  eapply together_bind; [apply together_sweep |]. intros _.
  apply together_when, together_calculate_averages.
Qed.

Lemma together_create_cells :
  together (agree true false) same_run create_cells.
Proof.
  eapply together_bind; [apply together_dimensions |]. intros d.
  eapply together_bind; [apply together_choice |]. intros c.
  eapply together_bind; [apply together_set_cells |]. intros _.
  apply together_emit.
Qed.

Lemma together_temperature_block temp :
  together (agree true false) (agree true false) (temperature_block temp).
Proof.
  eapply together_weaken with (pre := agree true false) (post := same_run);
    [done | by intros s1 s2 H; eapply agree_weaken; [| | exact H] |].
  eapply together_bind; [apply together_create_cells |]. intros _.
  eapply together_bind; [apply together_emit |]. intros _.
  eapply together_bind; [apply together_timesteps |]. intros t.
  apply together_for_each. intros i. apply together_sweep_iteration.
Qed.

Lemma together_finished_sim :
  together (agree true false) (agree true false) finished_sim.
Proof.
  eapply together_bind; [apply together_dimensions |]. intros d.
  eapply together_bind; [apply together_timesteps |]. intros t.
  eapply together_bind; [apply together_avg |]. intros a.
  apply together_emit.
Qed.

Lemma together_start_full_sim :
  together (agree false false) (agree true false) start_full_sim.
Proof.
  eapply together_bind; [apply together_emit |]. intros _.
  eapply together_bind; [apply together_set_avg |]. intros _.
  eapply together_bind; [apply together_tempurature |]. intros temps.
  eapply together_bind; [| intros _; apply together_finished_sim].
  destruct temps; [apply together_raise |].
  apply together_for_each. intros temp. apply together_temperature_block.
Qed.


End Determinism.

(** * The theorems on concrete runs *)

(** Membership in a list of sweep indices, as a test. *)
Definition listed (due : list Z) (i : Z) : bool := existsb (Z.eqb i) due.

Lemma listed_spec due i : listed due i = true <-> In i due.
Proof.
  unfold listed. rewrite existsb_exists. split.
  - intros (j & Hj & Heq). apply Z.eqb_eq in Heq. by subst.
  - intros Hin. exists i. split; [done | apply Z.eqb_refl].
Qed.

Lemma sampled_iterations_count d t due xs iterations :
  Forall2 (sampled_iteration d t due) xs iterations ->
  length (sampled_lines (concat iterations))
  = length (List.filter (listed due) xs).
Proof.
  induction 1 as [| i it xs iterations (attempts & [_ Hall] & Hcase) _ IH];
    [done |].
  cbn [concat List.filter]. rewrite sampled_lines_app, length_app, IH.
  assert (sampled_lines (progress_line i t) = []) as Hprogress
    by (unfold progress_line; by destruct (i mod 10 =? 0)).
  pose proof (listed_spec due i) as Hspec.
  destruct Hcase as [[Hin [line ->]] | [Hout ->]];
    rewrite !sampled_lines_app, Hprogress, (sampled_lines_attempts d attempts Hall).
  - apply Hspec in Hin. by rewrite Hin.
  - destruct (listed due i); [by destruct Hout; apply Hspec |]. done.
Qed.

Lemma samples_at_total d t due ts blocks :
  Forall2 (samples_at d t due) ts blocks ->
  length (sampled_lines (concat blocks))
  = (length ts * length (List.filter (listed due) (range t)))%nat.
Proof.
  induction 1 as [| temp evs ts blocks (c & its & -> & Hits) _ IH]; [done |].
  cbn [concat length]. rewrite sampled_lines_app, length_app, IH.
  change (sampled_lines (CellsCreated c :: PrintTemperature temp :: concat its))
    with (sampled_lines (concat its)).
  rewrite (sampled_iterations_count _ _ _ _ _ Hits). lia.
Qed.

Module Runs.
Import Concrete.

(** A Full-mode object about to run, and an object whose lattice and
    accumulator exist. *)
Definition full_run (d t : Z) : State :=
  full_mode (fresh (object d t "full") 42).

Definition sweeping (d t : Z) : State :=
  with_self (set_avg_qauntities [])
    (final (create_cells (fresh (object d t "full") 42))).

(** An object that ran before, in another mode spelling and with another
    scalar temperature, in a process whose generator is in the same state
    as in [fresh _ 42]. *)
Definition used : State :=
  {| self := {| dimensions := 2; timesteps := 3; sim_type := "BATCH";
                tempurature := Scalar 5; cells := Some [[1; 1]; [1; -1]];
                avg_qauntities := Some ["1.0,0,0"]; im := None |};
     np_random := 42;
     trace := [Yield] |}.

Ltac evaluate_grid_ok :=
  split; [vm_compute; discriminate |];
  eexists; split; [reflexivity |];
  split; [reflexivity | repeat constructor].

Lemma samples_of_150_and_50_sweeps_witness :
  tempurature (self (full_run 2 150)) = Schedule full_schedule
  /\ 0 <= dimensions (self (full_run 2 150))
  /\ (exists s' lines,
         start_full_sim (full_run 2 150) = Ok tt s'
         /\ avg_qauntities (self s') = Some lines
         /\ length lines = 100%nat)
  /\ (exists s',
         start_full_sim (full_run 2 50) = Ok tt s'
         /\ avg_qauntities (self s') = Some []).
Proof.
  split; [reflexivity |]. split; [vm_compute; discriminate |]. split.
  - destruct (samples_of_150_and_50_sweeps (full_run 2 150) full_schedule)
      as [H150 _]; [reflexivity | vm_compute; discriminate |].
    destruct (H150 eq_refl) as (s' & blocks & lines & Hrun & _ & _ & Havg & Hlen).
    exists s', lines. split; [exact Hrun |]. split; [exact Havg |].
    rewrite Hlen. reflexivity.
  - destruct (samples_of_150_and_50_sweeps (full_run 2 50) full_schedule)
      as [_ H50]; [reflexivity | vm_compute; discriminate |].
    exact (H50 eq_refl).
Defined.

(** C1 as stated fails: were the 150 sweeps of each of the 20 temperatures
    sampled exactly after the sweeps of index 99, 109, ..., 149, the run
    would emit 120 samples; it emits 100. *)
Lemma samples_at_99_to_149_refuted :
  ~ (exists s' blocks lines,
        start_sim (fresh (object 2 150 "full") 42) = Ok tt s'
        /\ trace s'
           = [WarningMessage] ++ concat blocks
               ++ [WriteData lines 2 150 (sim_info 2 150)]
        /\ Forall2 (samples_at 2 150 [99; 109; 119; 129; 139; 149])
                   full_schedule blocks).
Proof.
  intros (s' & blocks & lines & Hrun & Htrace & Hall).
  apply samples_at_total in Hall.
  replace (length (List.filter (listed [99; 109; 119; 129; 139; 149]) (range 150)))
    with 6%nat in Hall by (vm_compute; reflexivity).
  assert (length (sampled_lines
                    (trace (final (start_sim (fresh (object 2 150 "full") 42)))))
          = 100%nat) as Hcount by (vm_compute; reflexivity).
  rewrite Hrun in Hcount. cbn [final] in Hcount.
  rewrite Htrace, !sampled_lines_app, !length_app, Hall in Hcount.
  cbn in Hcount. lia.
Qed.


Lemma nonpositive_sizes_are_rejected_witness :
  init 0 100 "full" 2 = inl InvalidParameter
  /\ init 10 (-5) "visual" 2 = inl InvalidParameter
  /\ dimensions (self (run_calls [call_start_sim; call_anim_func 0]
                         (fresh (object 3 2 "Visual") 42))) = 3.
Proof.
  split_and!.
  - apply (nonpositive_sizes_are_rejected (C := collaborators) 0 100 "full" 2).
    left. lia.
  - apply (nonpositive_sizes_are_rejected (C := collaborators) 10 (-5) "visual" 2).
    right. lia.
  - destruct (nonpositive_sizes_are_rejected (C := collaborators) 3 2 "Visual" 2)
      as [_ Hgood].
    destruct (Hgood (object 3 2 "Visual") eq_refl) as (_ & _ & _ & Hkept).
    apply (Hkept 42 [call_start_sim; call_anim_func 0]).
Defined.


(** An object started in Visual mode: its lattice and its figure exist. *)
Definition framed : State := final (start_sim (fresh (object 3 2 "Visual") 42)).

Lemma sweep_makes_dimensions_squared_attempts_witness :
  grid_ok framed
  /\ is_Some (im (self framed))
  /\ (exists s' attempts,
         sweep (Scalar 2) framed = Ok tt s'
         /\ iterated (attempt_step (Scalar 2)) 9 framed s'
         /\ trace s' = trace framed ++ attempts
         /\ Z.of_nat (length attempts) = 9)
  /\ (exists s2 s' attempts c',
         iterated (attempt_step (Scalar 2)) 9 framed s2
         /\ trace s2 = trace framed ++ attempts
         /\ Z.of_nat (length attempts) = 9
         /\ anim_func 0 framed = Ok tt s'
         /\ trace s' = trace s2 ++ [SetArray c'; CheckSim; Yield])
  /\ (exists s',
         glauber_procedure (Scalar 2) framed = Ok tt s'
         /\ attempt_step (Scalar 2) framed s').
Proof.
  assert (is_Some (im (self framed))) as Him by (eexists; reflexivity).
  split; [evaluate_grid_ok |]. split; [exact Him |].
  destruct (sweep_makes_dimensions_squared_attempts (Scalar 2) framed)
    as ((s' & attempts & Hrun & Hsteps & Htrace & Hcount & _)
        & _ & Hframe & Hone);
    [evaluate_grid_ok |].
  split_and!.
  - exists s', attempts.
    split; [exact Hrun |]. split; [exact Hsteps |].
    split; [exact Htrace | exact Hcount].
  - destruct (Hframe Him 0)
      as (s2 & u & evs & c' & Hs2 & Htr2 & Hn & _ & Hu & Htr & _).
    exists s2, u, evs, c'.
    split; [exact Hs2 |]. split; [exact Htr2 |]. split; [exact Hn |].
    split; [exact Hu | exact Htr].
  - apply Hone. vm_compute. reflexivity.
Defined.

Lemma every_cell_is_a_spin_witness :
  spins_of (self (fresh (object 3 2 "Visual") 42))
  /\ (-1 = 1 \/ -1 = -1).
Proof.
  assert (spins_of (self (fresh (object 3 2 "Visual") 42))) as Hnew
    by (intros c Hc; discriminate Hc).
  split; [exact Hnew |].
  apply (every_cell_is_a_spin (fresh (object 3 2 "Visual") 42)
           [call_start_sim; call_anim_func 0; call_glauber_procedure (Scalar 2)]
           Hnew [[-1; -1; -1]; [-1; 1; -1]; [-1; -1; -1]] 2 1 (-1));
    reflexivity.
Defined.

Lemma unrecognized_mode_runs_full_witness :
  lower (sim_type (self (fresh (object 2 3 "batch") 42))) <> "visual"
  /\ start_sim (fresh (object 2 3 "batch") 42)
     = start_full_sim (full_mode (fresh (object 2 3 "batch") 42))
  /\ exists s', start_sim (fresh (object 2 3 "batch") 42) = Ok tt s'.
Proof.
  split; [vm_compute; discriminate |].
  destruct (unrecognized_mode_runs_full (fresh (object 2 3 "batch") 42))
    as [Hfull Hreturns]; [vm_compute; discriminate |].
  split; [exact Hfull |].
  destruct Hreturns as (s' & blocks & Hrun & _); [vm_compute; discriminate |].
  exists s'. exact Hrun.
Defined.


Lemma mode_selection_ignores_case_witness :
  start_sim (fresh (object 3 2 "VISUAL") 42)
  = start_visual (fresh (object 3 2 "VISUAL") 42)
  /\ start_sim (fresh (object 3 2 "Visual") 42)
     = start_visual (fresh (object 3 2 "Visual") 42)
  /\ start_sim (fresh (object 3 2 "visual ") 42)
     = start_full_sim (full_mode (fresh (object 3 2 "visual ") 42)).
Proof.
  split_and!.
  - apply (mode_selection_ignores_case (fresh (object 3 2 "VISUAL") 42)).
    apply lower_visual. reflexivity.
  - apply (mode_selection_ignores_case (fresh (object 3 2 "Visual") 42)).
    apply lower_visual. reflexivity.
  - apply (mode_selection_ignores_case (fresh (object 3 2 "visual ") 42)).
    rewrite <- lower_visual. vm_compute. discriminate.
Defined.

End Runs.


(** * Further properties of the methods *)

Section Edges.
Context {C : Collaborators}.

Lemma extends_avg_unchanged s s' evs :
  extends s s' evs -> sampled_lines evs = [] ->
  avg_qauntities (self s') = avg_qauntities (self s).
Proof.
  intros Hext Hnone. rewrite (ext_avg _ _ _ Hext), Hnone.
  destruct (avg_qauntities (self s)); cbn; [| done]. by rewrite app_nil_r.
Qed.

Lemma range_positive n : 0 < n -> exists xs, range n = 0 :: xs.
Proof.
  intros Hn. unfold range.
  destruct (Z.to_nat n) as [| k] eqn:Hk; [lia |].
  cbn [seq map]. by eexists.
Qed.

Lemma create_cells_negative s :
  dimensions (self s) < 0 -> create_cells s = Raise ValueError s.
Proof.
  intros Hd. unfold create_cells. rewrite bind_attr.
  unfold bind at 1, np_random_choice.
  by replace (dimensions (self s) <? 0) with true by lia.
Qed.

(** X1.  [create_cells] with a non-negative dimension returns and leaves a
    [dimensions] by [dimensions] lattice of spins, the same whatever lattice
    the object held before, touching no other attribute; with a negative
    dimension it raises [ValueError] and changes nothing. *)
Theorem create_cells_replaces_the_lattice (s : State) :
  (0 <= dimensions (self s) ->
   exists s' c,
     create_cells s = Ok tt s'
     /\ self s' = set_cells c (self s)
     /\ trace s' = trace s ++ [CellsCreated c]
     /\ shape_ok (dimensions (self s)) c
     /\ spins_ok c
     /\ forall c0, create_cells (with_self (set_cells c0) s) = Ok tt s')
  /\ (dimensions (self s) < 0 -> create_cells s = Raise ValueError s).
Proof.
  split; [| apply create_cells_negative].
  intros Hd. pose proof (create_cells_returns s Hd) as Hrun. cbn zeta in Hrun.
  destruct (choice_rows_lattice (Z.to_nat (dimensions (self s)))
              (Z.to_nat (dimensions (self s))) (np_random s))
    as (Hrows & Hcols & Hspins).
  eexists _, _. split; [exact Hrun |].
  split_and!; try done.
  intros c0. by rewrite (create_cells_returns (with_self (set_cells c0) s) Hd).
Qed.

Lemma glauber_procedure_nonpositive temp s :
  dimensions (self s) <= 0 -> glauber_procedure temp s = Raise ValueError s.
Proof.
  intros Hd. unfold glauber_procedure. rewrite bind_attr.
  unfold bind, np_random_randint.
  by replace (0 <? dimensions (self s)) with false by lia.
Qed.

(** X2.  Without a positive dimension there is nothing to update: an update
    attempt raises [ValueError] before drawing anything and leaves the
    state as it was; a sweep over dimension 0 returns at once without an
    attempt, and a sweep over a negative dimension raises [ValueError] at
    its first attempt, again with the state unchanged. *)
Theorem nonpositive_dimension_updates (temp : temperature) (s : State) :
  (dimensions (self s) <= 0 -> glauber_procedure temp s = Raise ValueError s)
  /\ (dimensions (self s) = 0 -> sweep temp s = Ok tt s)
  /\ (dimensions (self s) < 0 -> sweep temp s = Raise ValueError s).
Proof.
  split_and!.
  - apply glauber_procedure_nonpositive.
  - intros Hd. unfold sweep. rewrite bind_attr, Hd. done.
  - intros Hd. unfold sweep. rewrite bind_attr.
    destruct (range_positive (dimensions (self s) ^ 2)) as [xs ->]; [nia |].
    cbn [for_each]. apply bind_raise.
    apply glauber_procedure_nonpositive. lia.
Qed.

(** X3.  A sweep changes nothing but the lattice, the generator and the
    trace: in a state with a well-shaped lattice it returns, the lattice
    keeps its shape (and its spins stay spins), and the accumulator, the
    dimension, the number of timesteps, the mode and the temperature
    attribute are as before. *)
Theorem sweep_changes_only_the_lattice (temp : temperature) (s : State) :
  grid_ok s ->
  exists s',
    sweep temp s = Ok tt s'
    /\ grid_ok s'
    /\ (spins_of (self s) -> spins_of (self s'))
    /\ avg_qauntities (self s') = avg_qauntities (self s)
    /\ dimensions (self s') = dimensions (self s)
    /\ timesteps (self s') = timesteps (self s)
    /\ sim_type (self s') = sim_type (self s)
    /\ tempurature (self s') = tempurature (self s).
Proof.
  intros Hs.
  destruct (sweep_extends temp s Hs) as (s' & evs & Hrun & Hext & Hs' & [_ Hall]).
  exists s'. split; [exact Hrun |]. split; [exact Hs' |]. split.
  - intros Hspins. pose proof (steady_sweep temp s) as Hev.
    rewrite Hrun in Hev. by apply (evolves_spins _ _ Hev).
  - split; [| by destruct Hext].
    eapply extends_avg_unchanged; [exact Hext |].
    by eapply sampled_lines_attempts.
Qed.

(** X6.  Called on an object whose temperature is still the scalar the
    constructor stored, [start_full_sim] raises [TypeError] at its loop
    header: by then it has shown the warning and emptied the accumulator,
    but it has created no lattice, drawn nothing and written nothing. *)
Theorem start_full_sim_needs_a_schedule (s : State) (t : Q) :
  tempurature (self s) = Scalar t ->
  start_full_sim s
  = Raise TypeError
      (with_self (set_avg_qauntities []) (with_event WarningMessage s)).
Proof.
  intros Ht. unfold start_full_sim, SimulationPlane.warning_message.
  rewrite bind_emit, bind_assign, bind_attr.
  change (tempurature (self (with_self (set_avg_qauntities [])
                               (with_event WarningMessage s))))
    with (tempurature (self s)).
  by rewrite Ht.
Qed.

End Edges.

(** * The size and the hand-over of a Full run *)

(** Events of the two kinds a run is measured by. *)
Definition is_attempt (e : event) : bool :=
  match e with Attempt _ _ _ => true | _ => false end.

Definition is_write_data (e : event) : bool :=
  match e with WriteData _ _ _ _ => true | _ => false end.

Definition attempts_made (evs : list event) : nat :=
  length (List.filter is_attempt evs).

Lemma attempts_made_app e1 e2 :
  attempts_made (e1 ++ e2) = (attempts_made e1 + attempts_made e2)%nat.
Proof. unfold attempts_made. by rewrite List.filter_app, length_app. Qed.

Lemma attempts_made_all d evs :
  Forall (attempt_in d) evs -> attempts_made evs = length evs.
Proof.
  unfold attempts_made.
  induction 1 as [| e evs (row & col & a & -> & _) _ IH]; [done |].
  cbn. by rewrite IH.
Qed.

Lemma no_write_all d evs :
  Forall (attempt_in d) evs -> List.filter is_write_data evs = [].
Proof.
  induction 1 as [| e evs (row & col & a & -> & _) _ IH]; [done |].
  cbn. by rewrite IH.
Qed.

Lemma iteration_measure d t i evs :
  iteration_trace d t i evs ->
  attempts_made evs = Z.to_nat (d ^ 2)
  /\ List.filter is_write_data evs = [].
Proof.
  intros (_ & attempts & line & [Hlen Hall] & ->). split.
  - rewrite !attempts_made_app, (attempts_made_all d attempts Hall), Hlen.
    generalize (Z.to_nat (d ^ 2)). intros k.
    destruct (i mod 10 =? 0), (99 <=? i); cbn; lia.
  - rewrite !List.filter_app, (no_write_all d attempts Hall).
    by destruct (i mod 10 =? 0), (99 <=? i).
Qed.

Lemma iterations_measure d t xs blocks :
  Forall2 (iteration_trace d t) xs blocks ->
  attempts_made (concat blocks) = (length xs * Z.to_nat (d ^ 2))%nat
  /\ List.filter is_write_data (concat blocks) = [].
Proof.
  induction 1 as [| i evs xs blocks Hit _ [IHn IHw]]; [done |].
  destruct (iteration_measure d t i evs Hit) as [Hn Hw].
  cbn [concat length]. rewrite attempts_made_app, List.filter_app, IHn, IHw, Hn, Hw.
  split; [lia | done].
Qed.

Lemma block_measure d t temp evs :
  block_trace d t temp evs ->
  attempts_made evs = (Z.to_nat t * Z.to_nat (d ^ 2))%nat
  /\ List.filter is_write_data evs = [].
Proof.
  intros (c & blocks & -> & _ & _ & Hall).
  destruct (iterations_measure d t _ _ Hall) as [Hn Hw].
  rewrite range_length in Hn. split; [| exact Hw].
  change (attempts_made (CellsCreated c :: PrintTemperature temp :: concat blocks))
    with (attempts_made (concat blocks)). exact Hn.
Qed.

Lemma schedule_measure d t ts blocks :
  Forall2 (block_trace d t) ts blocks ->
  attempts_made (concat blocks)
  = (length ts * (Z.to_nat t * Z.to_nat (d ^ 2)))%nat
  /\ List.filter is_write_data (concat blocks) = [].
Proof.
  induction 1 as [| temp evs ts blocks Hb _ [IHn IHw]]; [done |].
  destruct (block_measure d t temp evs Hb) as [Hn Hw].
  cbn [concat length]. rewrite attempts_made_app, List.filter_app, IHn, IHw, Hn, Hw.
  split; [lia | done].
Qed.

(** The number of sweeps of index below [n] that are followed by a sample. *)
Lemma due_count_nat (n : nat) :
  Z.of_nat (length (List.filter sample_due (range (Z.of_nat n))))
  = Z.max 0 ((Z.of_nat n - 1) / 10 - 9).
Proof.
  induction n as [| n IH]; [done |].
  replace (Z.of_nat (S n)) with (Z.of_nat n + 1) by lia.
  rewrite range_succ by lia.
  rewrite List.filter_app, length_app, Nat2Z.inj_add, IH. cbn [List.filter].
  pose proof (sample_due_spec (Z.of_nat n)) as Hspec.
  replace (Z.of_nat n + 1 - 1) with (Z.of_nat n) by lia.
  destruct (sample_due (Z.of_nat n)); cbn [length].
  - destruct Hspec as [Hspec _]. specialize (Hspec eq_refl).
    Z.div_mod_to_equations. lia.
  - assert (~ (99 <= Z.of_nat n /\ Z.of_nat n mod 10 = 0)) as Hnot
      by (intros H; apply Hspec in H; discriminate H).
    Z.div_mod_to_equations. lia.
Qed.

Lemma due_count t :
  Z.of_nat (length (List.filter sample_due (range t)))
  = Z.max 0 ((t - 1) / 10 - 9).
Proof.
  destruct (Z.le_gt_cases 0 t) as [Ht | Ht].
  - rewrite <- (Z2Nat.id t Ht) at 1. rewrite due_count_nat.
    by rewrite Z2Nat.id.
  - unfold range. replace (Z.to_nat t) with 0%nat by lia. cbn.
    Z.div_mod_to_equations. lia.
Qed.

Section Size.
Context {C : Collaborators}.

(** X5.  A Full run over [n] temperatures with [timesteps] sweeps each
    records [n * max 0 ((timesteps - 1) / 10 - 9)] lines: none up to 100
    sweeps, then one more for every further ten. *)
Theorem full_run_line_count (s : State) (ts : list Q) :
  tempurature (self s) = Schedule ts ->
  0 <= dimensions (self s) ->
  exists s' lines,
    start_full_sim s = Ok tt s'
    /\ avg_qauntities (self s') = Some lines
    /\ Z.of_nat (length lines)
       = Z.of_nat (length ts) * Z.max 0 ((timesteps (self s) - 1) / 10 - 9).
Proof.
  intros Hts Hd.
  destruct (start_full_sim_returns s ts Hts Hd)
    as (s' & blocks & Hrun & Hall & Havg & _).
  exists s', (sampled_lines (concat blocks)).
  split; [exact Hrun |]. split; [exact Havg |].
  rewrite (schedule_samples _ _ _ _ Hall), Nat2Z.inj_mul. by rewrite due_count.
Qed.

(** X9.  A Full run over [n] temperatures makes
    [n * timesteps * dimensions ^ 2] update attempts, none when
    [timesteps] is not positive. *)
Theorem full_run_attempt_count (s : State) (ts : list Q) :
  tempurature (self s) = Schedule ts ->
  0 <= dimensions (self s) ->
  exists s' evs,
    start_full_sim s = Ok tt s'
    /\ trace s' = trace s ++ evs
    /\ Z.of_nat (attempts_made evs)
       = Z.of_nat (length ts) * Z.max 0 (timesteps (self s))
           * dimensions (self s) ^ 2.
Proof.
  intros Hts Hd.
  destruct (start_full_sim_returns s ts Hts Hd)
    as (s' & blocks & Hrun & Hall & _ & Htrace & _).
  destruct (schedule_measure _ _ _ _ Hall) as [Hn _].
  eexists s', _. split; [exact Hrun |]. split; [exact Htrace |].
  rewrite !attempts_made_app, Hn.
  change (attempts_made [WarningMessage]) with 0%nat.
  match goal with
  | |- context [attempts_made [?e]] => change (attempts_made [e]) with 0%nat
  end.
  assert (0 <= dimensions (self s) ^ 2) by (apply Z.pow_nonneg; lia).
  rewrite !Nat2Z.inj_add, !Nat2Z.inj_mul.
  rewrite (Z2Nat.id (dimensions (self s) ^ 2)) by done.
  replace (Z.of_nat (Z.to_nat (timesteps (self s))))
    with (Z.max 0 (timesteps (self s))) by lia.
  cbn. ring.
Qed.

(** X7.  A Full run calls [write_data] exactly once, as its last action,
    with the dimension, the number of timesteps, the header and the
    accumulator as it then stands; the accumulator holds exactly the lines
    sampled during this run, in the order they were sampled, and nothing of
    what it held before. *)
Theorem full_run_hands_over_once (s : State) (ts : list Q) :
  tempurature (self s) = Schedule ts ->
  0 <= dimensions (self s) ->
  exists s' evs lines,
    start_full_sim s = Ok tt s'
    /\ trace s'
       = trace s ++ evs
           ++ [WriteData lines (dimensions (self s)) (timesteps (self s))
                 (sim_info (dimensions (self s)) (timesteps (self s)))]
    /\ List.filter is_write_data evs = []
    /\ lines = sampled_lines evs
    /\ avg_qauntities (self s') = Some lines.
Proof.
  intros Hts Hd.
  destruct (start_full_sim_returns s ts Hts Hd)
    as (s' & blocks & Hrun & Hall & Havg & Htrace & _).
  destruct (schedule_measure _ _ _ _ Hall) as [_ Hw].
  exists s', ([WarningMessage] ++ concat blocks), (sampled_lines (concat blocks)).
  split; [exact Hrun |]. by split_and!.
Qed.

End Size.

(** * Visual mode *)

Section Visual.
Context {C : Collaborators}.

(** X8.  In Visual mode with a non-negative dimension [start_sim] creates
    the lattice once, builds the figure around that same lattice and starts
    the animation of the base class; afterwards the lattice and the image
    exist, the temperature is still the scalar of the constructor and the
    accumulator is as before (none on a new object).  With a negative
    dimension it raises [ValueError] before any figure is made. *)
Theorem visual_start_creates_one_lattice (s : State) :
  spells_visual (sim_type (self s)) ->
  (0 <= dimensions (self s) ->
   exists s' c,
     start_sim s = Ok tt s'
     /\ trace s'
        = trace s
            ++ [CellsCreated c; SuperCreateFigure;
                SetTitle ("Glauber Simulation For "
                            +:+ str_int (dimensions (self s) ^ 2) +:+ " Cells");
                Imshow c; Colorbar; SuperStartSim]
     /\ cells (self s') = Some c
     /\ is_Some (im (self s'))
     /\ tempurature (self s') = tempurature (self s)
     /\ avg_qauntities (self s') = avg_qauntities (self s)
     /\ shape_ok (dimensions (self s)) c
     /\ spins_ok c)
  /\ (dimensions (self s) < 0 -> start_sim s = Raise ValueError s).
Proof.
  intros Hmode. apply lower_visual in Hmode.
  rewrite (start_sim_visual s Hmode). split.
  - intros Hd. rewrite (bind_ok _ _ _ _ _ (create_cells_returns s Hd)).
    destruct (choice_rows_lattice (Z.to_nat (dimensions (self s)))
                (Z.to_nat (dimensions (self s))) (np_random s))
      as (Hrows & Hcols & Hspins).
    eexists _, _. split; [reflexivity |]. cbn [trace self with_event with_self
      cells im tempurature avg_qauntities set_im set_cells].
    split_and!; try done. by rewrite <- !app_assoc.
  - intros Hd. apply bind_raise. by apply create_cells_negative.
Qed.


(** X15.  A frame on an object whose figure was never created (no
    [create_figure] before) still sweeps, and then raises [AttributeError]
    at the image: the state it leaves is the one after the sweep, and
    nothing was handed to the renderer. *)
Theorem frame_without_figure_raises (i : Z) (s : State) :
  grid_ok s ->
  im (self s) = None ->
  exists s2 attempts,
    sweep (tempurature (self s)) s = Ok tt s2
    /\ trace s2 = trace s ++ attempts
    /\ Forall (attempt_in (dimensions (self s))) attempts
    /\ anim_func i s = Raise AttributeError s2.
Proof.
  intros Hs Him.
  destruct (sweep_steps (tempurature (self s)) s Hs)
    as (s2 & attempts & Hrun & Hsteps & Hext & _ & [_ Hall]).
  exists s2, attempts. split; [exact Hrun |].
  split; [apply Hext |]. split; [exact Hall |].
  unfold anim_func. rewrite bind_attr, (bind_ok _ _ _ _ _ Hrun).
  unfold bind, attr_opt. by rewrite (iterated_im _ _ _ _ Hsteps), Him.
Qed.

End Visual.

(** * Invariants of the object under every method *)

Section Invariant.
Context {C : Collaborators}.
Variable J : Glauber -> Prop.
Hypothesis J_avg : forall g a, J g -> J (set_avg_qauntities a g).
Hypothesis J_tempurature : forall g t, J g -> J (set_tempurature t g).
Hypothesis J_im : forall g i, J g -> J (set_im i g).
Hypothesis J_create : forall s, J (self s) -> J (self (final (create_cells s))).
Hypothesis J_update :
  forall temp s, J (self s) -> J (self (final (glauber_procedure temp s))).

(** [m] keeps the invariant, whether it returns or raises. *)
Definition keeps {A} (m : M A) : Prop :=
  forall s, J (self s) -> J (self (final (m s))).

Lemma keeps_bind {A B} (m : M A) (k : A -> M B) :
  keeps m -> (forall a, keeps (k a)) -> keeps (bind m k).
Proof.
  intros Hm Hk s Hs. specialize (Hm s Hs). unfold bind.
  destruct (m s) as [a s' | e s']; cbn [final] in *; [| done]. by apply Hk.
Qed.

Lemma keeps_for_each {X} (xs : list X) (body : X -> M unit) :
  (forall x, keeps (body x)) -> keeps (for_each xs body).
Proof.
  intros Hbody. induction xs as [| x xs IH]; cbn [for_each]; [by intros s |].
  apply keeps_bind; [apply Hbody | by intros _].
Qed.

Lemma keeps_when c (body : M unit) : keeps body -> keeps (when c body).
Proof. destruct c; [done |]. by intros _ s. Qed.

(** Actions that leave the object itself alone. *)
Lemma keeps_untouched {A} (m : M A) :
  (forall s, self (final (m s)) = self s) -> keeps m.
Proof. intros Hm s Hs. by rewrite Hm. Qed.

Lemma keeps_attr {A} (f : Glauber -> A) : keeps (attr f).
Proof. by apply keeps_untouched. Qed.

Lemma keeps_attr_opt {A} (f : Glauber -> option A) : keeps (attr_opt f).
Proof. apply keeps_untouched. intros s. unfold attr_opt. by destruct (f (self s)). Qed.

Lemma keeps_emit e : keeps (emit e).
Proof. by apply keeps_untouched. Qed.

Lemma keeps_raise {A} e : keeps (@raise C A e).
Proof. by apply keeps_untouched. Qed.

Lemma keeps_check_nieghbours coordinate : keeps (check_nieghbours coordinate).
Proof.
  apply keeps_untouched. intros s. destruct coordinate as [row col].
  by destruct (check_nieghbours_cases row col s)
    as [[e ->] | (energy & c & spin & -> & _)].
Qed.

Lemma keeps_sweep temp : keeps (sweep temp).
Proof.
  apply keeps_bind; [apply keeps_attr |]. intros d.
  apply keeps_for_each. intros _. exact (J_update temp).
Qed.

Lemma keeps_calculate_averages temp : keeps (calculate_averages temp).
Proof.
  apply keeps_bind; [apply keeps_attr_opt |]. intros c.
  apply keeps_bind; [apply keeps_attr_opt |]. intros a.
  apply keeps_bind; [| intros _; apply keeps_emit].
  intros s Hs. by apply J_avg.
Qed.

Lemma keeps_sweep_iteration temp i : keeps (sweep_iteration temp i).
Proof.
  apply keeps_bind; [apply keeps_attr |]. intros t.
  apply keeps_bind; [apply keeps_when, keeps_emit |]. intros _.
  apply keeps_bind; [apply keeps_sweep |]. intros _.
  apply keeps_when, keeps_calculate_averages.
Qed.

Lemma keeps_temperature_block temp : keeps (temperature_block temp).
Proof.
  apply keeps_bind; [exact J_create |]. intros _.
  apply keeps_bind; [apply keeps_emit |]. intros _.
  apply keeps_bind; [apply keeps_attr |]. intros t.
  apply keeps_for_each. intros i. apply keeps_sweep_iteration.
Qed.

Lemma keeps_finished_sim : keeps finished_sim.
Proof.
  apply keeps_bind; [apply keeps_attr |]. intros d.
  apply keeps_bind; [apply keeps_attr |]. intros t.
  apply keeps_bind; [apply keeps_attr_opt |]. intros a.
  apply keeps_emit.
Qed.

Lemma keeps_start_full_sim : keeps start_full_sim.
Proof.
  apply keeps_bind; [apply keeps_emit |]. intros _.
  apply keeps_bind; [by intros s Hs; apply J_avg |]. intros _.
  apply keeps_bind; [apply keeps_attr |]. intros temps.
  apply keeps_bind; [| intros _; apply keeps_finished_sim].
  destruct temps; [apply keeps_raise |].
  apply keeps_for_each. intros temp. apply keeps_temperature_block.
Qed.

Lemma keeps_create_figure : keeps create_figure.
Proof.
  apply keeps_bind; [apply keeps_emit |]. intros _.
  apply keeps_bind; [apply keeps_attr |]. intros d.
  apply keeps_bind; [apply keeps_emit |]. intros _.
  apply keeps_bind; [apply keeps_attr_opt |]. intros c.
  apply keeps_bind; [apply keeps_emit |]. intros _.
  apply keeps_bind; [by intros s Hs; apply J_im |]. intros _.
  apply keeps_emit.
Qed.

Lemma keeps_start_sim : keeps start_sim.
Proof.
  apply keeps_bind; [apply keeps_attr |]. intros st.
  destruct (lower st =? "visual")%string.
  - apply keeps_bind; [exact J_create |]. intros _.
    apply keeps_bind; [apply keeps_create_figure |]. intros _.
    apply keeps_emit.
  - apply keeps_bind; [by intros s Hs; apply J_tempurature |]. intros _.
    apply keeps_start_full_sim.
Qed.

Lemma keeps_anim_func i : keeps (anim_func i).
Proof.
  apply keeps_bind; [apply keeps_attr |]. intros temp.
  apply keeps_bind; [apply keeps_sweep |]. intros _.
  apply keeps_bind; [apply keeps_attr_opt |]. intros image.
  apply keeps_bind; [apply keeps_attr_opt |]. intros c.
  apply keeps_bind; [apply keeps_emit |]. intros _.
  apply keeps_bind; [apply keeps_emit |]. intros _.
  apply keeps_bind; [apply keeps_attr_opt |]. intros yielded.
  apply keeps_emit.
Qed.

Lemma call_keeps m s : J (self s) -> J (self (call m s)).
Proof.
  destruct m; cbn [call].
  - apply J_create.
  - apply keeps_create_figure.
  - apply keeps_start_sim.
  - apply keeps_start_full_sim.
  - apply keeps_calculate_averages.
  - apply keeps_anim_func.
  - apply J_update.
  - apply keeps_check_nieghbours.
  - apply keeps_finished_sim.
Qed.

Lemma run_calls_keeps ms s : J (self s) -> J (self (run_calls ms s)).
Proof.
  revert s. induction ms as [| m ms IH]; intros s Hs; cbn [run_calls fold_left].
  - done.
  - apply IH. by apply call_keeps.
Qed.

End Invariant.

(** The lattice, when there is one, is [dimensions] by [dimensions]. *)
Definition well_shaped (g : Glauber) : Prop :=
  forall c, cells g = Some c ->
    0 <= dimensions g /\ shape_ok (dimensions g) c.

Section Shape.
Context {C : Collaborators}.

Lemma well_shaped_create s :
  well_shaped (self s) -> well_shaped (self (final (create_cells s))).
Proof.
  intros Hs. destruct (Z.le_gt_cases 0 (dimensions (self s))) as [Hd | Hd].
  - rewrite (create_cells_returns s Hd). cbn [final self].
    intros c [= <-]. split; [done |].
    destruct (choice_rows_lattice (Z.to_nat (dimensions (self s)))
                (Z.to_nat (dimensions (self s))) (np_random s))
      as (Hrows & Hcols & _).
    by split.
  - rewrite create_cells_negative by lia. done.
Qed.

Lemma well_shaped_update temp s :
  well_shaped (self s) -> well_shaped (self (final (glauber_procedure temp s))).
Proof.
  intros Hs.
  destruct (glauber_procedure_cases temp s)
    as [(e & s' & -> & Hself)
       | (row & col & accepted & c & spin & g & -> & Hc & Hspin)]; cbn [final].
  - by rewrite Hself.
  - destruct accepted; cbn [self]; [| done].
    intros c' [= <-]. destruct (Hs c Hc) as [Hd Hshape].
    split; [done |]. by apply cell_update_shape.
Qed.

(** X10.  From any state whose lattice, if it has one, is [dimensions] by
    [dimensions] (a new object has none), every sequence of method calls,
    returned or raised, leads to such a state: no method ever leaves a
    lattice of another shape. *)
Theorem lattice_keeps_its_shape (s0 : State) (ms : list method) :
  well_shaped (self s0) ->
  forall c,
    cells (self (run_calls ms s0)) = Some c ->
    0 <= dimensions (self s0)
    /\ length c = Z.to_nat (dimensions (self s0))
    /\ Forall (fun r => length r = Z.to_nat (dimensions (self s0))) c.
Proof.
  intros H0 c Hc.
  assert (well_shaped (self (run_calls ms s0))) as Hshape.
  { apply (run_calls_keeps well_shaped); try done.
    - apply well_shaped_create.
    - apply well_shaped_update. }
  destruct (evolves_parameters _ _ (run_calls_evolves ms s0)) as (Hd & _).
  destruct (Hshape c Hc) as [Hpos [Hlen Hrows]]. rewrite Hd in *. done.
Qed.

(** X12.  Hence, once a lattice exists, updating never fails for want of a
    cell: after any sequence of method calls a sweep returns, with a
    positive dimension so does a single update attempt, and a frame returns
    whenever the figure exists as well. *)
Theorem updates_return_once_cells_exist
    (s0 : State) (ms : list method) (temp : temperature) (i : Z) :
  well_shaped (self s0) ->
  is_Some (cells (self (run_calls ms s0))) ->
  (exists s', sweep temp (run_calls ms s0) = Ok tt s')
  /\ (is_Some (im (self (run_calls ms s0))) ->
      exists s', anim_func i (run_calls ms s0) = Ok tt s')
  /\ (0 < dimensions (self (run_calls ms s0)) ->
      exists s', glauber_procedure temp (run_calls ms s0) = Ok tt s').
Proof.
  intros H0 [c Hc].
  assert (well_shaped (self (run_calls ms s0))) as Hshape.
  { apply (run_calls_keeps well_shaped); try done.
    - apply well_shaped_create.
    - apply well_shaped_update. }
  destruct (Hshape c Hc) as [Hd Hc_shape].
  assert (grid_ok (run_calls ms s0)) as Hgrid by (split; [done | by exists c]).
  split_and!.
  - destruct (sweep_extends temp _ Hgrid) as (s' & evs & Hrun & _). by exists s'.
  - intros Him.
    destruct (anim_func_returns i _ Hgrid Him)
      as (s2 & s' & evs & c' & _ & _ & _ & _ & _ & _ & Hrun & _).
    by exists s'.
  - intros Hpos.
    destruct (glauber_procedure_extends temp _ Hgrid Hpos) as (s' & e & Hrun & _).
    by exists s'.
Qed.

End Shape.

(** * What a Full run prints and records, in order *)

Definition is_print_temperature (e : event) : bool :=
  match e with PrintTemperature _ => true | _ => false end.

Definition is_print_sweep (e : event) : bool :=
  match e with PrintSweep _ _ => true | _ => false end.

Definition is_cells_created (e : event) : bool :=
  match e with CellsCreated _ => true | _ => false end.

Lemma filter_attempts (p : event -> bool) d evs :
  (forall row col a, p (Attempt row col a) = false) ->
  Forall (attempt_in d) evs -> List.filter p evs = [].
Proof.
  intros Hp. induction 1 as [| e evs (row & col & a & -> & _) _ IH]; [done |].
  cbn. by rewrite Hp.
Qed.

(** A filter that drops attempts and samples sees, of the sweep loop, only
    the progress lines. *)
Lemma filter_iterations (p : event -> bool) d t xs blocks :
  (forall row col a, p (Attempt row col a) = false) ->
  (forall line, p (Sampled line) = false) ->
  Forall2 (iteration_trace d t) xs blocks ->
  List.filter p (concat blocks)
  = flat_map (fun i => List.filter p (progress_line i t)) xs.
Proof.
  intros Hatt Hsam.
  induction 1 as [| i evs xs blocks (_ & attempts & line & [_ Hall] & ->) _ IH];
    [done |].
  cbn [concat flat_map]. rewrite !List.filter_app, IH.
  rewrite (filter_attempts p d attempts Hatt Hall).
  fold (progress_line i t).
  replace (List.filter p (if (99 <=? i) && (i mod 10 =? 0) then [Sampled line] else []))
    with (@nil event)
    by (destruct ((99 <=? i) && (i mod 10 =? 0)); cbn; by rewrite ?Hsam).
  by rewrite app_nil_r.
Qed.

Lemma flat_map_nothing {X Y} (f : X -> list Y) xs :
  (forall x, f x = []) -> flat_map f xs = [].
Proof. intros Hf. induction xs as [| x xs IH]; cbn; [done |]. by rewrite Hf, IH. Qed.

(** The number of sweeps of index below [n] that print a progress line. *)
Lemma progress_count_nat (n : nat) :
  Z.of_nat (length (flat_map (fun i => List.filter is_print_sweep (progress_line i (Z.of_nat n)))
                      (range (Z.of_nat n))))
  = (Z.of_nat n + 9) / 10.
Proof.
  generalize (Z.of_nat n) at 1 as t. intros t.
  induction n as [| n IH]; [done |].
  replace (Z.of_nat (S n)) with (Z.of_nat n + 1) by lia.
  rewrite range_succ by lia.
  rewrite flat_map_app, length_app, Nat2Z.inj_add, IH. cbn [flat_map].
  rewrite app_nil_r. unfold progress_line.
  destruct (Z.eqb_spec (Z.of_nat n mod 10) 0) as [Hmod | Hmod]; cbn [List.filter is_print_sweep length];
    Z.div_mod_to_equations; lia.
Qed.

Lemma progress_count t :
  Z.of_nat (length (flat_map (fun i => List.filter is_print_sweep (progress_line i t))
                      (range t)))
  = Z.max 0 ((t + 9) / 10).
Proof.
  destruct (Z.le_gt_cases 0 t) as [Ht | Ht].
  - pose proof (progress_count_nat (Z.to_nat t)) as Hn.
    rewrite Z2Nat.id in Hn by done. rewrite Hn.
    Z.div_mod_to_equations. lia.
  - unfold range. replace (Z.to_nat t) with 0%nat by lia. cbn.
    Z.div_mod_to_equations. lia.
Qed.

Lemma block_prints d t temp evs :
  block_trace d t temp evs ->
  List.filter is_print_temperature evs = [PrintTemperature temp]
  /\ length (List.filter is_cells_created evs) = 1%nat
  /\ Z.of_nat (length (List.filter is_print_sweep evs)) = Z.max 0 ((t + 9) / 10).
Proof.
  intros (c & blocks & -> & _ & _ & Hall). cbn [List.filter is_print_temperature
    is_cells_created is_print_sweep].
  rewrite !(filter_iterations _ d t _ _) by done.
  split_and!.
  - rewrite flat_map_nothing; [done |].
    intros i. unfold progress_line. by destruct (i mod 10 =? 0).
  - rewrite flat_map_nothing; [done |].
    intros i. unfold progress_line. by destruct (i mod 10 =? 0).
  - apply progress_count.
Qed.

Lemma schedule_prints d t ts blocks :
  Forall2 (block_trace d t) ts blocks ->
  List.filter is_print_temperature (concat blocks) = map PrintTemperature ts
  /\ length (List.filter is_cells_created (concat blocks)) = length ts
  /\ Z.of_nat (length (List.filter is_print_sweep (concat blocks)))
     = Z.of_nat (length ts) * Z.max 0 ((t + 9) / 10).
Proof.
  induction 1 as [| temp evs ts blocks Hb _ (IHt & IHc & IHs)]; [by split_and! |].
  destruct (block_prints d t temp evs Hb) as (Ht & Hc & Hs).
  cbn [concat length map]. rewrite !List.filter_app, !length_app, Ht, IHt, Hc, IHc.
  split_and!; [done | done |]. lia.
Qed.

Section Printing.
Context {C : Collaborators}.

(** X13.  A Full run creates exactly one lattice per temperature, prints
    the temperatures of the schedule once each and in order, and prints
    [max 0 ((timesteps + 9) / 10)] progress lines per temperature (before
    the sweeps of index 0, 10, 20, ...). *)
Theorem full_run_prints (s : State) (ts : list Q) :
  tempurature (self s) = Schedule ts ->
  0 <= dimensions (self s) ->
  exists s' evs,
    start_full_sim s = Ok tt s'
    /\ trace s' = trace s ++ evs
    /\ List.filter is_print_temperature evs = map PrintTemperature ts
    /\ length (List.filter is_cells_created evs) = length ts
    /\ Z.of_nat (length (List.filter is_print_sweep evs))
       = Z.of_nat (length ts) * Z.max 0 ((timesteps (self s) + 9) / 10).
Proof.
  intros Hts Hd.
  destruct (start_full_sim_returns s ts Hts Hd)
    as (s' & blocks & Hrun & Hall & _ & Htrace & _).
  destruct (schedule_prints _ _ _ _ Hall) as (Ht & Hc & Hs).
  eexists s', _. split; [exact Hrun |]. split; [exact Htrace |].
  rewrite !List.filter_app. cbn [List.filter is_print_temperature
    is_cells_created is_print_sweep app].
  rewrite !app_nil_r. by split_and!.
Qed.

(** The rows a temperature contributes: one per sampled sweep, each the
    observation of some lattice at that temperature. *)
Definition rows_of (temp : Q) (t : Z) (rows : list string) : Prop :=
  length rows = length (List.filter sample_due (range t))
  /\ Forall (fun row => exists c, row = observation temp c) rows.

Lemma sweep_iteration_row temp i s :
  grid_ok s -> is_Some (avg_qauntities (self s)) ->
  exists s' evs,
    sweep_iteration temp i s = Ok tt s' /\ extends s s' evs
    /\ (grid_ok s' /\ is_Some (avg_qauntities (self s')))
    /\ exists c, sampled_lines evs
                 = if sample_due i then [observation temp c] else [].
Proof.
  intros Hs Ha.
  destruct (sweep_iteration_extends temp i s Hs Ha)
    as (s' & attempts & c' & Hrun & Hs' & _ & [_ Hall] & Hext).
  eexists s', _. split; [exact Hrun |]. split; [exact Hext |]. split.
  - split; [done |]. rewrite (ext_avg _ _ _ Hext). by apply fmap_is_Some.
  - exists c'. rewrite !sampled_lines_app, (sampled_lines_attempts _ _ Hall).
    fold (sample_due i).
    by destruct (i mod 10 =? 0), (sample_due i).
Qed.

Lemma rows_of_iterations temp xs blocks :
  Forall2 (fun i evs => exists c, sampled_lines evs
                                  = if sample_due i then [observation temp c] else [])
          xs blocks ->
  length (sampled_lines (concat blocks)) = length (List.filter sample_due xs)
  /\ Forall (fun row => exists c, row = observation temp c)
            (sampled_lines (concat blocks)).
Proof.
  induction 1 as [| i evs xs blocks [c Hc] _ [IHlen IHall]]; [by split |].
  cbn [concat List.filter]. rewrite sampled_lines_app, Hc.
  destruct (sample_due i); cbn [app length]; [| done].
  split; [by rewrite IHlen |]. constructor; [by exists c | done].
Qed.

Lemma temperature_block_rows temp s :
  0 <= dimensions (self s) -> is_Some (avg_qauntities (self s)) ->
  exists s' evs,
    temperature_block temp s = Ok tt s' /\ extends s s' evs
    /\ rows_of temp (timesteps (self s)) (sampled_lines evs).
Proof.
  intros Hd Ha. unfold temperature_block.
  destruct (create_cells_extends s Hd)
    as (s1 & c & Hrun1 & Hext1 & Hs1 & _).
  rewrite (bind_ok _ _ _ _ _ Hrun1), bind_emit, bind_attr.
  cbn [self with_event]. rewrite (ext_timesteps _ _ _ Hext1).
  pose proof (extends_trans _ _ _ _ _ Hext1
                (extends_event s1 (PrintTemperature temp) eq_refl)) as Hext2.
  set (s2 := with_event (PrintTemperature temp) s1) in *.
  destruct (for_each_extends
              (fun u => grid_ok u /\ is_Some (avg_qauntities (self u)))
              (fun i evs => exists c, sampled_lines evs
                                      = if sample_due i then [observation temp c] else [])
              (range (timesteps (self s))) (sweep_iteration temp))
    with (s := s2) as (s3 & blocks & Hrun3 & Hext3 & _ & Hall).
  - intros i u _ [Hu Hau]. by apply sweep_iteration_row.
  - split; [done |]. rewrite (ext_avg _ _ _ Hext2). by apply fmap_is_Some.
  - eexists s3, _. split; [exact Hrun3 |].
    split; [by eapply extends_trans |].
    rewrite sampled_lines_app.
    change (sampled_lines [CellsCreated c; PrintTemperature temp]) with (@nil string).
    by apply rows_of_iterations.
Qed.

Lemma rows_of_blocks t ts blocks :
  Forall2 (fun temp evs => rows_of temp t (sampled_lines evs)) ts blocks ->
  exists groups,
    sampled_lines (concat blocks) = concat groups
    /\ Forall2 (fun temp rows => rows_of temp t rows) ts groups.
Proof.
  induction 1 as [| temp evs ts blocks Hrows _ (groups & Hcat & Hall)].
  - by exists [].
  - exists (sampled_lines evs :: groups). cbn [concat].
    split; [by rewrite sampled_lines_app, Hcat | by constructor].
Qed.

(** X14.  The rows a Full run records are grouped by temperature, in the
    order of the schedule: the accumulator is the concatenation of one
    group per temperature, and every row of a group is the observation of
    some lattice at the temperature of that group, one row per sampled
    sweep. *)
Theorem full_run_rows_grouped_by_temperature (s : State) (ts : list Q) :
  tempurature (self s) = Schedule ts ->
  0 <= dimensions (self s) ->
  exists s' groups,
    start_full_sim s = Ok tt s'
    /\ avg_qauntities (self s') = Some (concat groups)
    /\ Forall2 (fun temp rows =>
                  Z.of_nat (length rows)
                  = Z.max 0 ((timesteps (self s) - 1) / 10 - 9)
                  /\ Forall (fun row =>
                               exists c,
                                 row = str_float temp +:+ "," +:+
                                       str_observable (calculate_total_energy c)
                                       +:+ "," +:+
                                       str_observable (calculate_total_mag c))
                            rows)
               ts groups.
Proof.
  intros Hts Hd. unfold start_full_sim, SimulationPlane.warning_message.
  rewrite bind_emit, bind_assign, bind_attr.
  set (s0 := with_self (set_avg_qauntities []) (with_event WarningMessage s)).
  change (tempurature (self s0)) with (tempurature (self s)). rewrite Hts.
  set (t := timesteps (self s)).
  destruct (for_each_extends
              (fun u => 0 <= dimensions (self u)
                        /\ is_Some (avg_qauntities (self u))
                        /\ timesteps (self u) = t)
              (fun temp evs => rows_of temp t (sampled_lines evs))
              ts temperature_block)
    with (s := s0) as (s1 & blocks & Hrun1 & Hext1 & _ & Hall).
  - intros temp u _ (Hdu & Hau & Htu).
    destruct (temperature_block_rows temp u Hdu Hau) as (u' & evs & Hrun & Hext & Hrows).
    rewrite Htu in Hrows. exists u', evs. split_and!; try done.
    + by rewrite (ext_dimensions _ _ _ Hext).
    + rewrite (ext_avg _ _ _ Hext). by apply fmap_is_Some.
    + by rewrite (ext_timesteps _ _ _ Hext).
  - by split_and!.
  - destruct (rows_of_blocks _ _ _ Hall) as (groups & Hcat & Hgroups).
    rewrite (bind_ok _ _ _ _ _ Hrun1). unfold finished_sim. rewrite !bind_attr.
    pose proof (ext_avg _ _ _ Hext1) as Havg. cbn in Havg.
    rewrite (bind_attr_opt _ _ _ _ Havg).
    eexists _, groups. split; [done |]. split; [cbn; by rewrite Havg, Hcat |].
    eapply Forall2_impl; [exact Hgroups |]. intros temp rows [Hlen Hrows].
    split; [| exact Hrows]. rewrite Hlen. apply due_count.
Qed.

(** X4.  During a Full run the accumulator only grows: a temperature block
    returns with the lines it found still in front, in their order, and has
    added behind them one observation of the lattice at its temperature per
    sampled sweep. *)
Theorem accumulator_only_grows (temp : Q) (s : State) (a : list string) :
  0 <= dimensions (self s) ->
  avg_qauntities (self s) = Some a ->
  exists s' rows,
    temperature_block temp s = Ok tt s'
    /\ avg_qauntities (self s') = Some (a ++ rows)
    /\ Z.of_nat (length rows) = Z.max 0 ((timesteps (self s) - 1) / 10 - 9)
    /\ Forall (fun row =>
                 exists c,
                   row = str_float temp +:+ "," +:+
                         str_observable (calculate_total_energy c) +:+ "," +:+
                         str_observable (calculate_total_mag c))
              rows.
Proof.
  intros Hd Ha.
  destruct (temperature_block_rows temp s Hd) as (s' & evs & Hrun & Hext & Hlen & Hrows);
    [by rewrite Ha |].
  exists s', (sampled_lines evs). split; [exact Hrun |].
  split; [by rewrite (ext_avg _ _ _ Hext), Ha |].
  split; [| exact Hrows]. rewrite Hlen. apply due_count.
Qed.

End Printing.

(** * The further properties on concrete runs *)

Module Checks.
Import Concrete Runs.

Definition new_visual : State := fresh (object 3 2 "Visual") 42.

Lemma create_cells_replaces_the_lattice_witness :
  0 <= dimensions (self new_visual)
  /\ (exists s' c,
         create_cells new_visual = Ok tt s'
         /\ self s' = set_cells c (self new_visual)
         /\ shape_ok 3 c)
  /\ dimensions (self (fresh (object (-1) 2 "full") 42)) < 0
  /\ create_cells (fresh (object (-1) 2 "full") 42)
     = Raise ValueError (fresh (object (-1) 2 "full") 42).
Proof.
  split; [vm_compute; discriminate |]. split.
  - destruct (create_cells_replaces_the_lattice new_visual) as [Hgood _].
    destruct Hgood as (s' & c & Hrun & Hself & _ & Hshape & _);
      [vm_compute; discriminate |].
    exists s', c. split; [exact Hrun |]. split; [exact Hself | exact Hshape].
  - split; [reflexivity |].
    apply (create_cells_replaces_the_lattice (fresh (object (-1) 2 "full") 42)).
    reflexivity.
Defined.

Lemma nonpositive_dimension_updates_witness :
  glauber_procedure (Scalar 2) (fresh (object 0 5 "Visual") 42)
  = Raise ValueError (fresh (object 0 5 "Visual") 42)
  /\ sweep (Scalar 2) (fresh (object 0 5 "Visual") 42)
     = Ok tt (fresh (object 0 5 "Visual") 42)
  /\ sweep (Scalar 2) (fresh (object (-2) 5 "Visual") 42)
     = Raise ValueError (fresh (object (-2) 5 "Visual") 42).
Proof.
  split_and!.
  - apply (nonpositive_dimension_updates (Scalar 2) (fresh (object 0 5 "Visual") 42)).
    vm_compute. discriminate.
  - apply (nonpositive_dimension_updates (Scalar 2) (fresh (object 0 5 "Visual") 42)).
    reflexivity.
  - apply (nonpositive_dimension_updates (Scalar 2) (fresh (object (-2) 5 "Visual") 42)).
    reflexivity.
Defined.

Lemma sweep_changes_only_the_lattice_witness :
  grid_ok (sweeping 3 150)
  /\ exists s',
       sweep (Scalar 2) (sweeping 3 150) = Ok tt s'
       /\ avg_qauntities (self s') = Some []
       /\ timesteps (self s') = 150.
Proof.
  split; [evaluate_grid_ok |].
  destruct (sweep_changes_only_the_lattice (Scalar 2) (sweeping 3 150))
    as (s' & Hrun & _ & _ & Havg & _ & Ht & _); [evaluate_grid_ok |].
  exists s'. split; [exact Hrun |]. split; [exact Havg | exact Ht].
Defined.

Lemma accumulator_only_grows_witness :
  0 <= dimensions (self (with_self (set_avg_qauntities ["0.9,-8,4"]) (full_run 2 120)))
  /\ exists s' rows,
       temperature_block 1 (with_self (set_avg_qauntities ["0.9,-8,4"]) (full_run 2 120))
       = Ok tt s'
       /\ avg_qauntities (self s') = Some ("0.9,-8,4" :: rows)
       /\ Z.of_nat (length rows) = 2.
Proof.
  split; [vm_compute; discriminate |].
  destruct (accumulator_only_grows 1
              (with_self (set_avg_qauntities ["0.9,-8,4"]) (full_run 2 120))
              ["0.9,-8,4"])
    as (s' & rows & Hrun & Havg & Hlen & _); [vm_compute; discriminate | reflexivity |].
  exists s', rows. split; [exact Hrun |]. split; [exact Havg |].
  rewrite Hlen. reflexivity.
Defined.

Lemma full_run_line_count_witness :
  tempurature (self (full_run 2 150)) = Schedule full_schedule
  /\ 0 <= dimensions (self (full_run 2 150))
  /\ exists s' lines,
       start_full_sim (full_run 2 150) = Ok tt s'
       /\ avg_qauntities (self s') = Some lines
       /\ Z.of_nat (length lines) = 100.
Proof.
  split; [reflexivity |]. split; [vm_compute; discriminate |].
  destruct (full_run_line_count (full_run 2 150) full_schedule)
    as (s' & lines & Hrun & Havg & Hlen); [reflexivity | vm_compute; discriminate |].
  exists s', lines. split; [exact Hrun |]. split; [exact Havg |].
  rewrite Hlen. reflexivity.
Defined.

Lemma start_full_sim_needs_a_schedule_witness :
  tempurature (self (fresh (object 2 3 "full") 42)) = Scalar 2
  /\ start_full_sim (fresh (object 2 3 "full") 42)
     = Raise TypeError
         (with_self (set_avg_qauntities [])
            (with_event WarningMessage (fresh (object 2 3 "full") 42))).
Proof.
  split; [reflexivity |].
  apply (start_full_sim_needs_a_schedule (fresh (object 2 3 "full") 42) 2).
  reflexivity.
Defined.

Lemma full_run_hands_over_once_witness :
  tempurature (self (full_run 2 3)) = Schedule full_schedule
  /\ 0 <= dimensions (self (full_run 2 3))
  /\ exists s' evs lines,
       start_full_sim (full_run 2 3) = Ok tt s'
       /\ trace s' = evs ++ [WriteData lines 2 3 (sim_info 2 3)]
       /\ List.filter is_write_data evs = [].
Proof.
  split; [reflexivity |]. split; [vm_compute; discriminate |].
  destruct (full_run_hands_over_once (full_run 2 3) full_schedule)
    as (s' & evs & lines & Hrun & Htrace & Hnone & _);
    [reflexivity | vm_compute; discriminate |].
  exists s', evs, lines. split; [exact Hrun |]. split; [exact Htrace | exact Hnone].
Defined.

Lemma visual_start_creates_one_lattice_witness :
  spells_visual (sim_type (self new_visual))
  /\ 0 <= dimensions (self new_visual)
  /\ exists s' c,
       start_sim new_visual = Ok tt s'
       /\ trace s'
          = [CellsCreated c; SuperCreateFigure;
             SetTitle "Glauber Simulation For 9 Cells";
             Imshow c; Colorbar; SuperStartSim]
       /\ cells (self s') = Some c
       /\ is_Some (im (self s')).
Proof.
  assert (spells_visual (sim_type (self new_visual))) as Hmode
    by (apply lower_visual; reflexivity).
  split; [exact Hmode |]. split; [vm_compute; discriminate |].
  destruct (visual_start_creates_one_lattice new_visual Hmode) as [Hgood _].
  destruct Hgood as (s' & c & Hrun & Htrace & Hc & Him & _); [vm_compute; discriminate |].
  exists s', c. split; [exact Hrun |]. split; [exact Htrace |].
  split; [exact Hc | exact Him].
Defined.

Lemma full_run_attempt_count_witness :
  tempurature (self (full_run 2 3)) = Schedule full_schedule
  /\ 0 <= dimensions (self (full_run 2 3))
  /\ exists s' evs,
       start_full_sim (full_run 2 3) = Ok tt s'
       /\ trace s' = evs
       /\ Z.of_nat (attempts_made evs) = 240.
Proof.
  split; [reflexivity |]. split; [vm_compute; discriminate |].
  destruct (full_run_attempt_count (full_run 2 3) full_schedule)
    as (s' & evs & Hrun & Htrace & Hcount); [reflexivity | vm_compute; discriminate |].
  exists s', evs. split; [exact Hrun |]. split; [exact Htrace |].
  rewrite Hcount. reflexivity.
Defined.

Lemma lattice_keeps_its_shape_witness :
  well_shaped (self new_visual)
  /\ cells (self (run_calls [call_start_sim; call_anim_func 0] new_visual))
     = Some [[-1; -1; -1]; [-1; 1; -1]; [-1; -1; -1]]
  /\ length [[-1; -1; -1]; [-1; 1; -1]; [-1; -1; -1]] = Z.to_nat 3.
Proof.
  assert (well_shaped (self new_visual)) as Hnew
    by (intros c Hc; discriminate Hc).
  split; [exact Hnew |]. split; [reflexivity |].
  apply (lattice_keeps_its_shape new_visual [call_start_sim; call_anim_func 0]
           Hnew [[-1; -1; -1]; [-1; 1; -1]; [-1; -1; -1]]).
  reflexivity.
Defined.


Lemma frame_without_figure_raises_witness :
  grid_ok (sweeping 3 150)
  /\ im (self (sweeping 3 150)) = None
  /\ exists s2,
       sweep (Scalar 1) (sweeping 3 150) = Ok tt s2
       /\ anim_func 0 (sweeping 3 150) = Raise AttributeError s2.
Proof.
  split; [evaluate_grid_ok |]. split; [reflexivity |].
  destruct (frame_without_figure_raises 0 (sweeping 3 150))
    as (s2 & attempts & Hrun & _ & _ & Hraise); [evaluate_grid_ok | reflexivity |].
  exists s2. split; [exact Hrun | exact Hraise].
Defined.

Lemma updates_return_once_cells_exist_witness :
  well_shaped (self new_visual)
  /\ is_Some (cells (self (run_calls [call_create_cells] new_visual)))
  /\ exists s',
       glauber_procedure (Scalar 2) (run_calls [call_create_cells] new_visual)
       = Ok tt s'.
Proof.
  assert (well_shaped (self new_visual)) as Hnew
    by (intros c Hc; discriminate Hc).
  assert (is_Some (cells (self (run_calls [call_create_cells] new_visual)))) as Hsome
    by (eexists; reflexivity).
  split; [exact Hnew |]. split; [exact Hsome |].
  destruct (updates_return_once_cells_exist new_visual [call_create_cells]
              (Scalar 2) 0 Hnew Hsome) as (_ & _ & Hupdate).
  apply Hupdate. vm_compute. reflexivity.
Defined.

Lemma full_run_prints_witness :
  tempurature (self (full_run 2 25)) = Schedule full_schedule
  /\ 0 <= dimensions (self (full_run 2 25))
  /\ exists s' evs,
       start_full_sim (full_run 2 25) = Ok tt s'
       /\ List.filter is_print_temperature evs = map PrintTemperature full_schedule
       /\ Z.of_nat (length (List.filter is_print_sweep evs)) = 60.
Proof.
  split; [reflexivity |]. split; [vm_compute; discriminate |].
  destruct (full_run_prints (full_run 2 25) full_schedule)
    as (s' & evs & Hrun & _ & Htemps & _ & Hsweeps);
    [reflexivity | vm_compute; discriminate |].
  exists s', evs. split; [exact Hrun |]. split; [exact Htemps |].
  rewrite Hsweeps. reflexivity.
Defined.

Lemma full_run_rows_grouped_by_temperature_witness :
  tempurature (self (full_run 2 120)) = Schedule full_schedule
  /\ 0 <= dimensions (self (full_run 2 120))
  /\ exists s' groups,
       start_full_sim (full_run 2 120) = Ok tt s'
       /\ avg_qauntities (self s') = Some (concat groups)
       /\ length groups = 20%nat.
Proof.
  split; [reflexivity |]. split; [vm_compute; discriminate |].
  destruct (full_run_rows_grouped_by_temperature (full_run 2 120) full_schedule)
    as (s' & groups & Hrun & Havg & Hall);
    [reflexivity | vm_compute; discriminate |].
  exists s', groups. split; [exact Hrun |]. split; [exact Havg |].
  apply Forall2_length in Hall. rewrite <- Hall. reflexivity.
Defined.

End Checks.
